(** * RP-X SUT discovery service: registry, trust exchange and fan-out

    A shallow embedding of the parts of the repository that the device
    registry and the SSH trust protocol rest on:

    - [sut_client/ssh_setup.py]            ([SSHSetup.add_authorized_key]),
    - [sut_discovery_service/ssh/master_key_manager.py]
                                           ([MasterKeyManager]),
    - [sut_discovery_service/api/suts.py]  (the SSE fan-out, the SUT
      websocket endpoint, [delete_sut] and [trigger_ssh_exchange]).

    Python values are modelled as the code has them: [str] as [string]
    (characters are code points below 256), [dict] as [gmap], [set] as a
    finite map from object identities, [Optional[T]] as [option T], a
    raised exception as an explicit outcome.  Everything that comes from
    outside the process (the file system, [ssh-keygen], the clock) is an
    explicit argument. *)

From Stdlib Require Import ZArith String Ascii List Bool Lia.
From stdpp Require Import base option gmap strings list fin_maps.

Set Warnings "-register-all".

Local Open Scope string_scope.
Local Open Scope list_scope.
Local Open Scope Z_scope.

(* ===================================================================== *)
(** * Python string operations used by the sources *)
(* ===================================================================== *)

Module PyStr.

(** [str.isspace] on one character, for the code points below 256. *)
Definition is_space (c : ascii) : bool :=
  let n := nat_of_ascii c in
  ((9 <=? n)%nat && (n <=? 13)%nat)
  || ((28 <=? n)%nat && (n <=? 32)%nat)
  || (n =? 133)%nat || (n =? 160)%nat.

(** [s.lstrip()] *)
Fixpoint lstrip (s : string) : string :=
  match s with
  | EmptyString => EmptyString
  | String c s' => if is_space c then lstrip s' else s
  end.

(** [s.rstrip()] *)
Fixpoint rstrip (s : string) : string :=
  match s with
  | EmptyString => EmptyString
  | String c s' =>
      match rstrip s' with
      | EmptyString => if is_space c then EmptyString else String c EmptyString
      | r => String c r
      end
  end.

(** [s.strip()] *)
Definition strip (s : string) : string := rstrip (lstrip s).

(** [s.startswith(p)] *)
Fixpoint startswith (s p : string) : bool :=
  match p, s with
  | EmptyString, _ => true
  | String a p', String b s' => Ascii.eqb a b && startswith s' p'
  | String _ _, EmptyString => false
  end.

(** [sub in s] *)
Fixpoint contains (sub s : string) : bool :=
  startswith s sub
  || match s with
     | EmptyString => false
     | String _ s' => contains sub s'
     end.


(** [s.split()]: the maximal runs of non-whitespace characters. *)
Fixpoint split (s : string) : list string :=
  match s with
  | EmptyString => []
  | String c s' =>
      if is_space c then split s'
      else
        match s' with
        | EmptyString => [String c EmptyString]
        | String c' _ =>
            if is_space c' then String c EmptyString :: split s'
            else
              match split s' with
              | t :: ts => String c t :: ts
              | [] => [String c EmptyString]
              end
        end
  end.

(** Python truthiness of a [str]. *)
Definition nonempty (s : string) : bool :=
  match s with EmptyString => false | _ => true end.

(** [a or b] on two strings. *)
Definition str_or (a b : string) : string := if nonempty a then a else b.

(** The lines of a text, cut at every line feed. *)
Fixpoint lines (s : string) : list string :=
  match s with
  | EmptyString => [EmptyString]
  | String c s' =>
      if Ascii.eqb c "010"%char then EmptyString :: lines s'
      else
        match lines s' with
        | l :: ls => String c l :: ls
        | [] => [String c EmptyString]
        end
  end.

(** The characters at which [str.splitlines] cuts, for the code points
    below 256. *)
Definition is_linebreak (c : ascii) : bool :=
  let n := nat_of_ascii c in
  ((10 <=? n)%nat && (n <=? 13)%nat)
  || ((28 <=? n)%nat && (n <=? 30)%nat)
  || (n =? 133)%nat.

(** [s.splitlines()]: a carriage return followed by a line feed is one
    cut, and a text that ends in a cut has no empty last line. *)
Fixpoint splitlines (s : string) : list string :=
  match s with
  | EmptyString => []
  | String c s' =>
      if is_linebreak c then
        match s' with
        | String c' s'' =>
            if Ascii.eqb c "013"%char && Ascii.eqb c' "010"%char
            then EmptyString :: splitlines s''
            else EmptyString :: splitlines s'
        | EmptyString => EmptyString :: splitlines s'
        end
      else
        match splitlines s' with
        | l :: ls => String c l :: ls
        | [] => [String c EmptyString]
        end
  end.

(** [sep.join(parts)] *)
Fixpoint join (sep : string) (parts : list string) : string :=
  match parts with
  | [] => EmptyString
  | [x] => x
  | x :: rest => x +:+ sep +:+ join sep rest
  end.

(** A text that is empty or starts with a non-blank. *)
Definition trimmed_left (s : string) : Prop :=
  match s with
  | EmptyString => True
  | String c _ => is_space c = false
  end.

(** Every character of the text passes the test. *)
Fixpoint all_chars (p : ascii -> bool) (s : string) : bool :=
  match s with
  | EmptyString => true
  | String c s' => p c && all_chars p s'
  end.


(** A text that [str.splitlines] would not cut. *)
Definition one_line (s : string) : bool :=
  all_chars (fun c => negb (is_linebreak c)) s.

End PyStr.

(* ===================================================================== *)
(** * master_key_manager.py: the Master's key pair *)
(* ===================================================================== *)

Module MasterKey.

(** The two files [master_ed25519] and [master_ed25519.pub] under the key
    directory; [None] is a file that does not exist. *)
Record key_files := KeyFiles {
  private_key : option string;
  public_key : option string
}.

(** What a run of [ssh-keygen -t ed25519 -N "" -f key -C comment] does. *)
Inductive keygen_outcome :=
| KeygenExit (returncode : Z) (stdout stderr : string) (priv pub : string)
| KeygenNotFound
| KeygenTimeout
| KeygenError (e : string).

(** What a run of [ssh-keygen -lf key] does. *)
Inductive listing_outcome :=
| ListingExit (returncode : Z) (stdout : string)
| ListingError (e : string).

(** The process environment of one call. *)
Record environment := Environment {
  mkdir_error : option string;       (* exception of [_ssh_dir.mkdir], if any *)
  hostname : string;                 (* [socket.gethostname()] *)
  keygen : keygen_outcome;
  listing : listing_outcome
}.

Definition both_exist (fs : key_files) : bool :=
  match private_key fs, public_key fs with
  | Some _, Some _ => true
  | _, _ => false
  end.

(** [MasterKeyManager.ensure_key_exists].  A run of [ssh-keygen] that
    exits with 0 has written the pair; any other run leaves the files
    as they were. *)
Definition ensure_key_exists (env : environment) (fs : key_files)
  : (bool * string) * key_files :=
  if both_exist fs then ((true, "Key already exists"), fs)
  else
    match mkdir_error env with
    | Some e => ((false, "Failed to create .ssh directory: " +:+ e), fs)
    | None =>
        let comment := "master@" +:+ hostname env in
        match keygen env with
        | KeygenExit rc out err priv pub =>
            if negb (rc =? 0) then
              let error := PyStr.str_or (PyStr.strip err) (PyStr.strip out) in
              ((false, "Key generation failed: " +:+ error), fs)
            else
              ((true, "Generated new key: " +:+ comment),
               {| private_key := Some priv; public_key := Some pub |})
        | KeygenNotFound => ((false, "ssh-keygen not found"), fs)
        | KeygenTimeout => ((false, "Key generation timed out"), fs)
        | KeygenError e => ((false, e), fs)
        end
    end.

(** [MasterKeyManager.get_public_key] *)
Definition get_public_key (env : environment) (fs : key_files)
  : option string * key_files :=
  let '((success, _), fs') := ensure_key_exists env fs in
  if negb success then (None, fs')
  else
    match public_key fs' with
    | None => (None, fs')
    | Some content => (Some (PyStr.strip content), fs')
    end.

(** [MasterKeyManager.get_fingerprint] *)
Definition get_fingerprint (env : environment) (fs : key_files)
  : option string * key_files :=
  let '((success, _), fs') := ensure_key_exists env fs in
  if negb success then (None, fs')
  else
    match private_key fs' with
    | None => (None, fs')
    | Some _ =>
        match listing env with
        | ListingExit rc out =>
            if rc =? 0 then
              match PyStr.split (PyStr.strip out) with
              | _ :: fp :: _ => (Some fp, fs')
              | _ => (None, fs')
              end
            else (None, fs')
        | ListingError _ => (None, fs')
        end
    end.

(** What a run of [ssh -i key ... user@ip command] does. *)
Inductive ssh_outcome :=
| SshExit (returncode : Z) (stdout stderr : string)
| SshTimeout
| SshError (e : string).

(** The account the Master runs under ([getpass.getuser()]) and the
    remote shell: the outcome of [ssh] for a target [user@ip], a connect
    timeout and a command. *)
Record shell := Shell {
  current_user : string;
  run_ssh : string -> Z -> string -> ssh_outcome
}.

(** The facts [get_key_info] reports (the two paths are constants of the
    manager and are left out). *)
Record key_info := KeyInfo {
  info_exists : bool;
  info_fingerprint : option string;
  info_public_key : option string
}.

(** [MasterKeyManager.get_key_info] *)
Definition get_key_info (env : environment) (fs : key_files)
  : key_info * key_files :=
  let present := both_exist fs in
  let '(fingerprint, fs) :=
    if present then get_fingerprint env fs else (None, fs) in
  let '(pk, fs) :=
    if present then get_public_key env fs else (None, fs) in
  ({| info_exists := present; info_fingerprint := fingerprint;
      info_public_key := pk |}, fs).

(** [user@ip], with the current user when no user is given. *)
Definition target (sh : shell) (sut_ip : string) (username : option string)
  : string :=
  default (current_user sh) username +:+ "@" +:+ sut_ip.

(** [MasterKeyManager.test_connection] *)
Definition test_connection (env : environment) (sh : shell)
    (sut_ip : string) (username : option string) (timeout : Z)
    (fs : key_files) : (bool * string) * key_files :=
  let '((success, msg), fs) := ensure_key_exists env fs in
  if negb success then ((false, "Master key not available: " +:+ msg), fs)
  else
    match run_ssh sh (target sh sut_ip username) timeout "echo SSH_OK" with
    | SshExit rc out err =>
        if (rc =? 0) && PyStr.contains "SSH_OK" out
        then ((true, "Connection successful"), fs)
        else ((false, PyStr.str_or (PyStr.strip err) "Connection failed"), fs)
    | SshTimeout => ((false, "Connection timed out"), fs)
    | SshError e => ((false, e), fs)
    end.

(** [MasterKeyManager.execute_on_sut]: [(success, stdout, stderr)]. *)
Definition execute_on_sut (env : environment) (sh : shell)
    (sut_ip command : string) (username : option string) (timeout : Z)
    (fs : key_files) : (bool * string * string) * key_files :=
  let '((success, msg), fs) := ensure_key_exists env fs in
  if negb success
  then ((false, "", "Master key not available: " +:+ msg), fs)
  else
    match run_ssh sh (target sh sut_ip username) timeout command with
    | SshExit rc out err => ((rc =? 0, out, err), fs)
    | SshTimeout => ((false, "", "Command timed out"), fs)
    | SshError e => ((false, "", e), fs)
    end.

End MasterKey.

(* ===================================================================== *)
(** * suts.py: the SSE fan-out *)
(* ===================================================================== *)

Module Sse.

(** An [asyncio.Queue]: [maxsize <= 0] is unbounded. *)
Record queue := Queue {
  maxsize : Z;
  items : list string
}.

(** [Queue.full] *)
Definition full (q : queue) : bool :=
  if maxsize q <=? 0 then false
  else maxsize q <=? Z.of_nat (length (items q)).

(** [Queue.put_nowait]: [None] is the raised [QueueFull]. *)
Definition put_nowait (q : queue) (item : string) : option queue :=
  if full q then None
  else Some {| maxsize := maxsize q; items := items q ++ [item] |}.

(** [_sse_clients]: a set of queue objects, keyed by object identity. *)
Abbreviation clients := (gmap positive queue).

(** The first loop of [broadcast_sse_event] over a snapshot of the set:
    every queue is tried, the ones that raise are collected. *)
Fixpoint enqueue_all (event_data : string) (cs : list (positive * queue))
  : list (positive * queue) * list positive :=
  match cs with
  | [] => ([], [])
  | (i, q) :: rest =>
      let '(kept, dead_clients) := enqueue_all event_data rest in
      match put_nowait q event_data with
      | Some q' => ((i, q') :: kept, dead_clients)
      | None => ((i, q) :: kept, i :: dead_clients)
      end
  end.

(** The second loop: [_sse_clients.discard(client)] for each dead one. *)
Definition discard_all (dead_clients : list positive) (s : clients) : clients :=
  fold_right (fun i acc => delete i acc) s dead_clients.

(** [broadcast_sse_event], given the serialised event. *)
Definition broadcast_sse_event (event_data : string) (s : clients) : clients :=
  let '(updated, dead_clients) := enqueue_all event_data (map_to_list s) in
  discard_all dead_clients (list_to_map updated).

(** What [event_generator] yields: an event, or the keepalive comment. *)
Inductive frame :=
| DataFrame (event_data : string)
| Keepalive.

(** The text of a frame on the wire. *)
Definition render (f : frame) : string :=
  let LF := String "010"%char EmptyString in
  match f with
  | DataFrame event_data => "data: " +:+ event_data +:+ LF +:+ LF
  | Keepalive => ": keepalive" +:+ LF +:+ LF
  end.

(** The start of [event_generator]: a new, unbounded [asyncio.Queue()]
    (the object [i]) is added to [_sse_clients]. *)
Definition subscribe (i : positive) (s : clients) : clients :=
  <[i := {| maxsize := 0; items := [] |}]> s.

(** The [finally] clause of [event_generator]:
    [_sse_clients.discard(queue)]. *)
Definition unsubscribe (i : positive) (s : clients) : clients :=
  delete i s.

(** One turn of the loop of [event_generator] for the subscribed queue
    [i], with no broadcast arriving while it waits: the oldest queued
    event, or the keepalive when the wait times out on an empty queue. *)
Definition next_frame (i : positive) (s : clients) : frame * clients :=
  match s !! i with
  | Some q =>
      match items q with
      | event_data :: rest =>
          (DataFrame event_data,
           <[i := {| maxsize := maxsize q; items := rest |}]> s)
      | [] => (Keepalive, s)
      end
  | None => (Keepalive, s)
  end.

(** [n] turns of that loop. *)
Fixpoint frames (n : nat) (i : positive) (s : clients)
  : list frame * clients :=
  match n with
  | O => ([], s)
  | S n' =>
      let '(f, s') := next_frame i s in
      let '(fs, s'') := frames n' i s' in
      (f :: fs, s'')
  end.

(** Several broadcasts in a row. *)
Definition broadcast_all (events : list string) (s : clients) : clients :=
  fold_left (fun acc event_data => broadcast_sse_event event_data acc) events s.

End Sse.

(* ===================================================================== *)
(** * The device registry and the connection manager *)
(* ===================================================================== *)

Module Registry.

(** Modelled from the spec: the [SUTDevice] objects the registry hands
    out (their class is in the [discovery] package, which is not part of
    the sources at hand), with the fields of the spec's DeviceRecord.
    Timestamps are seconds on the Master's clock. *)
Record SUTDevice := Device {
  unique_id : string;
  ip : string;
  port : Z;
  hostname : string;
  cpu_model : option string;
  display_name : string;
  capabilities : list string;
  is_online : bool;
  last_seen : Z;
  is_paired : bool;
  paired_by : option string;
  paired_at : option Z;
  session_id : Z;
  last_ip_change : option Z;
  binding_history : list (string * Z);
  ssh_public_key : option string;
  ssh_fingerprint : option string;
  master_key_installed : bool;
  master_key_installed_at : option Z
}.

(** Modelled from the spec: the registry object (its class is not part
    of the sources at hand): the primary map [devices] and the secondary
    index [ip_to_id_mapping], both of which [delete_sut] reaches into, the
    durable paired-device set and the cap on [binding_history]. *)
Record registry := Reg {
  devices : gmap string SUTDevice;
  ip_to_id_mapping : gmap string string;
  paired_store : gset string;
  history_cap : nat
}.

(** Modelled from the spec: [registry.get_device_by_id], a read of the
    primary map. *)
Definition get_device_by_id (unique_id : string) (r : registry) : option SUTDevice :=
  devices r !! unique_id.

(** Modelled from the spec: [registry.get_device_by_ip], a read through
    the secondary index. *)
Definition get_device_by_ip (ip : string) (r : registry) : option SUTDevice :=
  match ip_to_id_mapping r !! ip with
  | Some uid => devices r !! uid
  | None => None
  end.

(** Absent fields are preserved, present fields overwrite. *)
Definition merge {A} (new old : option A) : option A :=
  match new with Some _ => new | None => old end.

(** The most recent [n] entries of a log. *)
Definition keep_last {A} (n : nat) (l : list A) : list A :=
  drop (length l - n)%nat l.

(** Modelled from the spec: [DeviceRegistry.register_device] (the
    [discovery] package is not part of the sources at hand).  An upsert:
    a new record starts online, unpaired and without the Master's key;
    an existing record is merged, refreshed and brought online; a change
    of [ip] is logged in [binding_history] (capped), stamps
    [last_ip_change] and drops the reverse mapping of the old address
    when it still points at this device; a record that was offline is a
    new admission and gets the next [session_id].  The index entry of
    the incoming address is (re)pointed at this device. *)
Definition register_device (now : Z) (ip : string) (port : Z)
    (unique_id : string) (capabilities : list string) (hostname : string)
    (cpu_model display_name ssh_public_key ssh_fingerprint : option string)
    (r : registry) : SUTDevice * registry :=
  let device :=
    match devices r !! unique_id with
    | None =>
        {| unique_id := unique_id; ip := ip; port := port;
           hostname := hostname; cpu_model := cpu_model;
           display_name := default hostname display_name;
           capabilities := capabilities;
           is_online := true; last_seen := now;
           is_paired := false; paired_by := None; paired_at := None;
           session_id := 1; last_ip_change := None; binding_history := [];
           ssh_public_key := ssh_public_key;
           ssh_fingerprint := ssh_fingerprint;
           master_key_installed := false;
           master_key_installed_at := None |}
    | Some d =>
        let moved := negb (String.eqb ip (Registry.ip d)) in
        {| unique_id := Registry.unique_id d; ip := ip; port := port;
           hostname := hostname;
           cpu_model := merge cpu_model (Registry.cpu_model d);
           display_name := default (Registry.display_name d) display_name;
           capabilities := capabilities;
           is_online := true; last_seen := now;
           is_paired := is_paired d; paired_by := paired_by d;
           paired_at := paired_at d;
           session_id :=
             if is_online d then session_id d else session_id d + 1;
           last_ip_change :=
             if moved then Some now else last_ip_change d;
           binding_history :=
             if moved
             then keep_last (history_cap r) (binding_history d ++ [(ip, now)])
             else binding_history d;
           ssh_public_key := merge ssh_public_key (Registry.ssh_public_key d);
           ssh_fingerprint := merge ssh_fingerprint (Registry.ssh_fingerprint d);
           master_key_installed := master_key_installed d;
           master_key_installed_at := master_key_installed_at d |}
    end in
  let index :=
    match devices r !! unique_id with
    | Some d =>
        if String.eqb ip (Registry.ip d) then ip_to_id_mapping r
        else
          match ip_to_id_mapping r !! Registry.ip d with
          | Some owner =>
              if String.eqb owner unique_id
              then delete (Registry.ip d) (ip_to_id_mapping r)
              else ip_to_id_mapping r
          | None => ip_to_id_mapping r
          end
    | None => ip_to_id_mapping r
    end in
  (device,
   {| devices := <[unique_id := device]> (devices r);
      ip_to_id_mapping := <[ip := unique_id]> index;
      paired_store := paired_store r;
      history_cap := history_cap r |}).

Definition set_offline (d : SUTDevice) : SUTDevice :=
  {| unique_id := unique_id d; ip := ip d; port := port d;
     hostname := hostname d; cpu_model := cpu_model d;
     display_name := display_name d; capabilities := capabilities d;
     is_online := false; last_seen := last_seen d;
     is_paired := is_paired d; paired_by := paired_by d;
     paired_at := paired_at d; session_id := session_id d;
     last_ip_change := last_ip_change d;
     binding_history := binding_history d;
     ssh_public_key := ssh_public_key d;
     ssh_fingerprint := ssh_fingerprint d;
     master_key_installed := master_key_installed d;
     master_key_installed_at := master_key_installed_at d |}.

Definition set_master_key (installed : bool) (now : Z) (d : SUTDevice) : SUTDevice :=
  {| unique_id := unique_id d; ip := ip d; port := port d;
     hostname := hostname d; cpu_model := cpu_model d;
     display_name := display_name d; capabilities := capabilities d;
     is_online := is_online d; last_seen := last_seen d;
     is_paired := is_paired d; paired_by := paired_by d;
     paired_at := paired_at d; session_id := session_id d;
     last_ip_change := last_ip_change d;
     binding_history := binding_history d;
     ssh_public_key := ssh_public_key d;
     ssh_fingerprint := ssh_fingerprint d;
     master_key_installed := installed;
     master_key_installed_at :=
       if installed then Some now else master_key_installed_at d |}.

Definition with_devices (ds : gmap string SUTDevice) (r : registry) : registry :=
  {| devices := ds; ip_to_id_mapping := ip_to_id_mapping r;
     paired_store := paired_store r; history_cap := history_cap r |}.

(** Modelled from the spec: [DeviceRegistry.mark_device_offline] (not
    part of the sources at hand): clears the online state of a known
    record, alters nothing else and deletes nothing. *)
Definition mark_device_offline (unique_id : string) (r : registry) : registry :=
  with_devices (alter set_offline unique_id (devices r)) r.

(** Modelled from the spec: [DeviceRegistry.update_master_key_status]
    (not part of the sources at hand): the only writer of
    [master_key_installed]; an installation is stamped. *)
Definition update_master_key_status (now : Z) (unique_id : string)
    (installed : bool) (r : registry) : registry :=
  with_devices (alter (set_master_key installed now) unique_id (devices r)) r.

(** Modelled from the spec: [DeviceRegistry.save_paired_devices] (not
    part of the sources at hand): the durable set is rewritten wholesale
    from the records that are paired now. *)
Definition save_paired_devices (r : registry) : registry :=
  {| devices := devices r; ip_to_id_mapping := ip_to_id_mapping r;
     paired_store := dom (filter (fun kv => is_paired kv.2 = true) (devices r));
     history_cap := history_cap r |}.

Definition set_pairing (paired : bool) (by_whom : option string)
    (at_time : option Z) (d : SUTDevice) : SUTDevice :=
  {| unique_id := unique_id d; ip := ip d; port := port d;
     hostname := hostname d; cpu_model := cpu_model d;
     display_name := display_name d; capabilities := capabilities d;
     is_online := is_online d; last_seen := last_seen d;
     is_paired := paired; paired_by := by_whom; paired_at := at_time;
     session_id := session_id d;
     last_ip_change := last_ip_change d;
     binding_history := binding_history d;
     ssh_public_key := ssh_public_key d;
     ssh_fingerprint := ssh_fingerprint d;
     master_key_installed := master_key_installed d;
     master_key_installed_at := master_key_installed_at d |}.

(** Modelled from the spec: [DeviceRegistry.pair_device] (not part of the
    sources at hand): [false] for an unknown identity; otherwise the record
    is paired, who and when is recorded, and the paired set is persisted. *)
Definition pair_device (now : Z) (unique_id paired_by : string) (r : registry)
  : bool * registry :=
  match devices r !! unique_id with
  | None => (false, r)
  | Some _ =>
      (true,
       save_paired_devices
         (with_devices
            (alter (set_pairing true (Some paired_by) (Some now)) unique_id
               (devices r)) r))
  end.

(** Modelled from the spec: [DeviceRegistry.unpair_device]: symmetric. *)
Definition unpair_device (unique_id : string) (r : registry) : bool * registry :=
  match devices r !! unique_id with
  | None => (false, r)
  | Some _ =>
      (true,
       save_paired_devices
         (with_devices
            (alter (set_pairing false None None) unique_id (devices r)) r))
  end.

(** Every entry of the secondary index names a record of the primary map
    that is stored under the indexed address. *)
Definition index_sound (r : registry) : Prop :=
  forall (a uid : string),
    ip_to_id_mapping r !! a = Some uid ->
    exists d, devices r !! uid = Some d /\ ip d = a.


(** The record as the registration of [address], [port], [capabilities]
    and [hostname] leaves it: these four fields stored, and online. *)
Definition registered_with (address : string) (port : Z)
    (capabilities : list string) (hostname : string) (d : SUTDevice) : Prop :=
  ip d = address /\ Registry.port d = port
  /\ Registry.capabilities d = capabilities
  /\ Registry.hostname d = hostname /\ is_online d = true.


End Registry.

(* ===================================================================== *)
(** * suts.py: the websocket endpoint and the administrative endpoints *)
(* ===================================================================== *)

Module Api.
Import Registry.

(** A decoded JSON value, as [receive_json] returns it. *)
Inductive json :=
| JNull
| JBool (b : bool)
| JNum (n : Z)
| JStr (s : string)
| JList (l : list json)
| JDict (kv : list (string * json)).

(** Python truthiness, as [if success:] tests it. *)
Definition truthy (j : json) : bool :=
  match j with
  | JNull => false
  | JBool b => b
  | JNum n => negb (n =? 0)
  | JStr s => PyStr.nonempty s
  | JList l => match l with [] => false | _ => true end
  | JDict kv => match kv with [] => false | _ => true end
  end.

(** Truthiness of an [Optional[str]]. *)
Definition truthy_str (o : option string) : bool :=
  match o with Some s => PyStr.nonempty s | None => false end.

(** The registration payload: a JSON object whose fields, when present,
    have the types of the wire format; [None] is a key that is absent. *)
Record init_payload := InitPayload {
  p_ip : option string;
  p_port : option Z;
  p_capabilities : option (list string);
  p_hostname : option string;
  p_cpu_model : option string;
  p_display_name : option string;
  p_ssh_public_key : option string;
  p_ssh_key_fingerprint : option string
}.

(** What the first [receive_json] of a session yields. *)
Inductive received :=
| RecvFailed                       (* disconnect, or text that is not JSON *)
| RecvNotObject                    (* JSON, but not an object *)
| RecvObject (init_data : init_payload).

(** The messages the Master puts on a device's websocket. *)
Inductive out_msg :=
| RegisterAck (message sut_id : string) (ssh_registered : bool)
    (master_public_key master_fingerprint : option string)
    (re_exchange : bool) (session_id : Z)
| HeartbeatAck
| MasterKeyInstalledAck (success : bool) (error : option json)
| InstallMasterKey (master_public_key : string)
    (master_fingerprint : option string) (force : bool).

Definition is_install_master_key (m : out_msg) : bool :=
  match m with InstallMasterKey _ _ _ => true | _ => false end.

Definition is_register_ack (m : out_msg) : bool :=
  match m with RegisterAck _ _ _ _ _ _ _ => true | _ => false end.

(** The process state the endpoints share: the registry singleton, the
    identities with a live websocket in the connection manager, the
    Master's key files, and the log of what was sent to which device. *)
Record state := State {
  reg : registry;
  connections : gset string;
  key_files : MasterKey.key_files;
  sent : list (string * out_msg)
}.

(** What [key_store.add_key] does ([key_store.py] is not part of the
    sources at hand): it raises, or returns its success flag. *)
Inductive add_key_outcome :=
| AddKeyRaises
| AddKeyReturns (success : bool).

(** The environment of one request. *)
Record environment := Env {
  now : Z;
  key_manager_error : option string;  (* [get_master_key_manager] raising *)
  key_env : MasterKey.environment;
  add_key : add_key_outcome
}.

Definition with_reg (r : registry) (st : state) : state :=
  {| reg := r; connections := connections st;
     key_files := key_files st; sent := sent st |}.

(** [websocket.send_json] on the websocket of [sut_id]. *)
Definition send_json (sut_id : string) (m : out_msg) (st : state) : state :=
  {| reg := reg st; connections := connections st;
     key_files := key_files st; sent := sent st ++ [(sut_id, m)] |}.

(** Modelled from the spec: [ws_manager.connect] (the connection manager
    is not part of the sources at hand): the session becomes the live one
    of its identity, taking the place of a prior one.  Transports that
    fail while connecting or sending are outside the model. *)
Definition ws_connect (sut_id : string) (st : state) : state :=
  {| reg := reg st; connections := {[sut_id]} ∪ connections st;
     key_files := key_files st; sent := sent st |}.

(** Modelled from the spec: [ws_manager.disconnect]: idempotent. *)
Definition ws_disconnect (sut_id : string) (st : state) : state :=
  {| reg := reg st; connections := connections st ∖ {[sut_id]};
     key_files := key_files st; sent := sent st |}.

(** Modelled from the spec: [ws_manager.send_to_device]: [false] when the
    device has no live session, otherwise the message goes out on it. *)
Definition send_to_device (unique_id : string) (m : out_msg) (st : state)
  : bool * state :=
  if decide (unique_id ∈ connections st)
  then (true, send_json unique_id m st)
  else (false, st).

(** The [finally] clause of [websocket_sut_endpoint]. *)
Definition close_session (sut_id : string) (st : state) : state :=
  let st := ws_disconnect sut_id st in
  with_reg (mark_device_offline sut_id (reg st)) st.

(** The Master-key block of the registration path (suts.py 297-309):
    [(master_public_key, master_fingerprint, re_exchange_needed)]. *)
Definition master_key_block (env : environment) (device : SUTDevice)
    (fs : MasterKey.key_files)
  : (option string * option string * bool) * MasterKey.key_files :=
  match key_manager_error env with
  | Some _ => ((None, None, false), fs)
  | None =>
      let '(master_public_key, fs) := MasterKey.get_public_key (key_env env) fs in
      let '(master_fingerprint, fs) := MasterKey.get_fingerprint (key_env env) fs in
      ((master_public_key, master_fingerprint,
        negb (master_key_installed device)), fs)
  end.

(** [websocket_sut_endpoint] from [accept] to the sending of
    [register_ack] (suts.py 254-322); a path that raises runs the
    [finally] clause at once.  The flag tells whether the session goes on
    into the message loop. *)
Definition open_session (env : environment) (sut_id : string)
    (first : received) (st : state) : bool * state :=
  match first with
  | RecvFailed => (false, close_session sut_id st)
  | RecvNotObject =>
      (* the session is connected, then [init_data.get] raises *)
      (false, close_session sut_id (ws_connect sut_id st))
  | RecvObject init_data =>
      let st := ws_connect sut_id st in
      let ssh_public_key := p_ssh_public_key init_data in
      let ssh_fingerprint := p_ssh_key_fingerprint init_data in
      let ssh_registered :=
        if truthy_str ssh_public_key then
          match add_key env with
          | AddKeyReturns success => success
          | AddKeyRaises => false
          end
        else false in
      let '(device, r) :=
        register_device (now env)
          (default "unknown" (p_ip init_data))
          (default 8080 (p_port init_data))
          sut_id
          (default [] (p_capabilities init_data))
          (default "" (p_hostname init_data))
          (p_cpu_model init_data)
          (p_display_name init_data)
          ssh_public_key ssh_fingerprint (reg st) in
      let st := with_reg r st in
      let '((master_public_key, master_fingerprint, re_exchange_needed), fs) :=
        master_key_block env device (key_files st) in
      let st := {| reg := reg st; connections := connections st;
                   key_files := fs; sent := sent st |} in
      (true,
       send_json sut_id
         (RegisterAck ("SUT " +:+ sut_id +:+ " registered successfully")
            sut_id ssh_registered master_public_key master_fingerprint
            re_exchange_needed (session_id device))
         st)
  end.

(** One turn of the message loop (suts.py 327-364), for a message that
    is a JSON object. *)
Definition on_message (env : environment) (sut_id : string)
    (init_data : init_payload) (message : gmap string json) (st : state)
  : state :=
  match message !! "type" with
  | Some (JStr msg_type) =>
      if String.eqb msg_type "heartbeat" then
        let '(_, r) :=
          register_device (now env)
            (default "unknown" (p_ip init_data))
            (default 8080 (p_port init_data))
            sut_id
            (default [] (p_capabilities init_data))
            (default "" (p_hostname init_data))
            None None None None (reg st) in
        send_json sut_id HeartbeatAck (with_reg r st)
      else if String.eqb msg_type "status_update" then st
      else if String.eqb msg_type "master_key_installed" then
        let success := default (JBool false) (message !! "success") in
        if truthy success then
          let r := update_master_key_status (now env) sut_id true (reg st) in
          send_json sut_id (MasterKeyInstalledAck true None) (with_reg r st)
        else
          let error := default (JStr "Unknown error") (message !! "error") in
          send_json sut_id (MasterKeyInstalledAck false (Some error)) st
      else st
  | _ => st
  end.

(** An HTTP outcome: the returned body, or a raised [HTTPException]. *)
Inductive http (A : Type) :=
| Response (body : A)
| HTTPException (status_code : Z) (detail : string).
Arguments Response {A} body.
Arguments HTTPException {A} status_code detail.

(** [pair_sut] (suts.py 164-177); the body is the device as it is after
    the pairing. *)
Definition pair_sut (now : Z) (unique_id paired_by : string) (st : state)
  : http (option SUTDevice) * state :=
  let '(ok, r) := pair_device now unique_id paired_by (reg st) in
  if negb ok then
    (HTTPException 404 ("SUT " +:+ unique_id +:+ " not found"), st)
  else (Response (get_device_by_id unique_id r), with_reg r st).

(** [unpair_sut] (suts.py 180-193) *)
Definition unpair_sut (unique_id : string) (st : state)
  : http (option SUTDevice) * state :=
  let '(ok, r) := unpair_device unique_id (reg st) in
  if negb ok then
    (HTTPException 404 ("SUT " +:+ unique_id +:+ " not found"), st)
  else (Response (get_device_by_id unique_id r), with_reg r st).

(** The body of a successful [delete_sut]. *)
Record deleted := Deleted {
  del_success : bool;
  del_message : string;
  was_paired : bool
}.

(** [delete_sut] (suts.py 483-517) *)
Definition delete_sut (unique_id : string) (force : bool) (st : state)
  : http deleted * state :=
  match get_device_by_id unique_id (reg st) with
  | None => (HTTPException 404 ("SUT " +:+ unique_id +:+ " not found"), st)
  | Some device =>
      if is_paired device && negb force then
        (HTTPException 400
           ("SUT " +:+ unique_id
            +:+ " is paired. Use force=true to delete paired devices."), st)
      else
        let index :=
          match ip_to_id_mapping (reg st) !! ip device with
          | Some _ => delete (ip device) (ip_to_id_mapping (reg st))
          | None => ip_to_id_mapping (reg st)
          end in
        let r := {| devices := delete unique_id (devices (reg st));
                    ip_to_id_mapping := index;
                    paired_store := paired_store (reg st);
                    history_cap := history_cap (reg st) |} in
        let r := if is_paired device then save_paired_devices r else r in
        (Response {| del_success := true;
                     del_message := "SUT " +:+ unique_id +:+ " deleted successfully";
                     was_paired := is_paired device |},
         with_reg r st)
  end.

(** The bodies [trigger_ssh_exchange] returns. *)
Inductive exchange_reply :=
| AlreadyInstalled (installed_at : option Z)
| RequestSent (master_fingerprint : option string) (force : bool).

(** [trigger_ssh_exchange] (suts.py 527-588); [request] is the optional
    body, carrying [force]. *)
Definition trigger_ssh_exchange (env : environment) (unique_id : string)
    (request : option bool) (st : state) : http exchange_reply * state :=
  let force := default false request in
  match get_device_by_id unique_id (reg st) with
  | None => (HTTPException 404 ("SUT " +:+ unique_id +:+ " not found"), st)
  | Some device =>
      if negb (is_online device) then
        (HTTPException 400 ("SUT " +:+ unique_id +:+ " is offline"), st)
      else if master_key_installed device && negb force then
        (Response (AlreadyInstalled (master_key_installed_at device)), st)
      else
        match key_manager_error env with
        | Some e => (HTTPException 500 ("Failed to get Master key: " +:+ e), st)
        | None =>
            let '(master_public_key, fs) :=
              MasterKey.get_public_key (key_env env) (key_files st) in
            let '(master_fingerprint, fs) :=
              MasterKey.get_fingerprint (key_env env) fs in
            let st := {| reg := reg st; connections := connections st;
                         key_files := fs; sent := sent st |} in
            match master_public_key with
            | Some pk =>
                if PyStr.nonempty pk then
                  let message := InstallMasterKey pk master_fingerprint force in
                  let '(success, st) := send_to_device unique_id message st in
                  if negb success then
                    (HTTPException 500 "Failed to send key exchange request", st)
                  else (Response (RequestSent master_fingerprint force), st)
                else
                  (HTTPException 500
                     "Failed to get Master key: 500: Master SSH key not available", st)
            | None =>
                (HTTPException 500
                   "Failed to get Master key: 500: Master SSH key not available", st)
            end
        end
  end.

(** The operations that reach the registry, and one step of the
    service. *)
Inductive op :=
| OpOpen (env : environment) (sut_id : string) (first : received)
| OpMessage (env : environment) (sut_id : string)
    (init_data : init_payload) (message : gmap string json)
| OpClose (sut_id : string)
| OpDelete (unique_id : string) (force : bool)
| OpExchange (env : environment) (unique_id : string) (request : option bool)
| OpPair (now : Z) (unique_id paired_by : string)
| OpUnpair (unique_id : string).

Definition step (o : op) (st : state) : state :=
  match o with
  | OpOpen env sut_id first => (open_session env sut_id first st).2
  | OpMessage env sut_id init_data message =>
      on_message env sut_id init_data message st
  | OpClose sut_id => close_session sut_id st
  | OpDelete unique_id force => (delete_sut unique_id force st).2
  | OpExchange env unique_id request =>
      (trigger_ssh_exchange env unique_id request st).2
  | OpPair now unique_id paired_by => (pair_sut now unique_id paired_by st).2
  | OpUnpair unique_id => (unpair_sut unique_id st).2
  end.

(** [websocket_sut_endpoint] for one session that nothing else
    interleaves with: the registration, the messages of the loop (each at
    its own time), then the closing of the transport. *)
Definition websocket_sut_endpoint (env : environment) (sut_id : string)
    (first : received)
    (messages : list (environment * gmap string json)) (st : state) : state :=
  let '(alive, st') := open_session env sut_id first st in
  if alive then
    match first with
    | RecvObject init_data =>
        close_session sut_id
          (fold_left (fun s m => on_message m.1 sut_id init_data m.2 s)
             messages st')
    | _ => st'
    end
  else st'.

Definition run (ops : list op) (st : state) : state :=
  fold_left (fun s o => step o s) ops st.

(** The start of the process: nothing registered, no key generated. *)
Definition initial (cap : nat) : state :=
  {| reg := {| devices := ∅; ip_to_id_mapping := ∅;
               paired_store := ∅; history_cap := cap |};
     connections := ∅;
     key_files := {| MasterKey.private_key := None;
                     MasterKey.public_key := None |};
     sent := [] |}.

(** [get_sut] (suts.py 152-161) *)
Definition get_sut (unique_id : string) (st : state) : http SUTDevice :=
  match get_device_by_id unique_id (reg st) with
  | None => HTTPException 404 ("SUT " +:+ unique_id +:+ " not found")
  | Some device => Response device
  end.





(** The body of [get_master_key_info] (the two paths are constants). *)
Record master_key_reply := MasterKeyReply {
  mk_exists : bool;
  mk_fingerprint : option string
}.

(** [get_master_key_info] (suts.py 713-731): the dictionary is built
    entry by entry, [exists] before [fingerprint]. *)
Definition get_master_key_info (env : environment) (st : state)
  : http master_key_reply * state :=
  match key_manager_error env with
  | Some e => (HTTPException 500 e, st)
  | None =>
      let key_exists :=
        match MasterKey.private_key (key_files st) with
        | Some _ => true
        | None => false
        end in
      let '(fingerprint, fs) :=
        MasterKey.get_fingerprint (key_env env) (key_files st) in
      (Response {| mk_exists := key_exists; mk_fingerprint := fingerprint |},
       {| reg := reg st; connections := connections st;
          key_files := fs; sent := sent st |})
  end.

(** The [master_key_info] entry of [get_ssh_status]. *)
Inductive master_key_info :=
| KeyInfoOk (fingerprint : option string) (available : bool)
| KeyInfoError (e : string).

(** The body of [get_ssh_status]. *)
Record ssh_status := SshStatus {
  ss_unique_id : string;
  ss_ip : string;
  ss_hostname : string;
  ss_is_online : bool;
  ss_ssh_fingerprint : option string;
  ss_registered_on_master : bool;
  ss_master_key_installed : bool;
  ss_installed_at : option Z;
  ss_master_key_info : master_key_info;
  ss_session_id : Z;
  ss_last_ip_change : option Z;
  ss_ip_change_count : nat;
  ss_binding_history : list (string * Z)
}.

(** [get_ssh_status] (suts.py 591-653); [key_store] is
    [key_store.is_key_registered], [None] when the key store cannot be
    obtained. *)
Definition get_ssh_status (env : environment)
    (key_store : option (string -> bool)) (unique_id : string) (st : state)
  : http ssh_status * state :=
  match get_device_by_id unique_id (reg st) with
  | None => (HTTPException 404 ("SUT " +:+ unique_id +:+ " not found"), st)
  | Some device =>
      let '(info, fs) :=
        match key_manager_error env with
        | Some e => (KeyInfoError e, key_files st)
        | None =>
            let '(fingerprint, fs) :=
              MasterKey.get_fingerprint (key_env env) (key_files st) in
            let '(pk, fs) := MasterKey.get_public_key (key_env env) fs in
            (KeyInfoOk fingerprint
               (match pk with Some _ => true | None => false end), fs)
        end in
      let sut_key_registered :=
        match key_store, ssh_fingerprint device with
        | Some is_key_registered, Some fp =>
            if PyStr.nonempty fp then is_key_registered fp else false
        | _, _ => false
        end in
      (Response
         {| ss_unique_id := unique_id; ss_ip := ip device;
            ss_hostname := hostname device;
            ss_is_online := is_online device;
            ss_ssh_fingerprint := ssh_fingerprint device;
            ss_registered_on_master := sut_key_registered;
            ss_master_key_installed := master_key_installed device;
            ss_installed_at := master_key_installed_at device;
            ss_master_key_info := info;
            ss_session_id := session_id device;
            ss_last_ip_change := last_ip_change device;
            ss_ip_change_count := length (binding_history device);
            ss_binding_history := keep_last 5 (binding_history device) |},
       {| reg := reg st; connections := connections st;
          key_files := fs; sent := sent st |})
  end.

(** The [ssh] entry of [diagnose_ssh_connectivity]. *)
Inductive ssh_result :=
| NotTested (error : string)
| Tested (connected : bool) (message : string)
    (master_fingerprint : option string).

(** The [device_info] entry: identity, hostname, online, key installed. *)
Definition device_info (d : SUTDevice) : string * string * bool * bool :=
  (unique_id d, hostname d, is_online d, master_key_installed d).

(** The body of [diagnose_ssh_connectivity]. *)
Record diagnosis := Diagnosis {
  diag_ip : string;
  device_found : bool;
  diag_device_info : option (string * string * bool * bool);
  diag_ssh : ssh_result
}.

(** [diagnose_ssh_connectivity] (suts.py 656-710) *)
Definition diagnose_ssh_connectivity (env : environment)
    (sh : MasterKey.shell) (ip : string) (st : state) : diagnosis * state :=
  let device := get_device_by_ip ip (reg st) in
  let '(result, fs) :=
    match key_manager_error env with
    | Some e => (NotTested e, key_files st)
    | None =>
        let '((key_exists, key_msg), fs) :=
          MasterKey.ensure_key_exists (key_env env) (key_files st) in
        if negb key_exists
        then (NotTested ("Master key not available: " +:+ key_msg), fs)
        else
          let '((success, msg), fs) :=
            MasterKey.test_connection (key_env env) sh ip None 10 fs in
          let '(fingerprint, fs) :=
            MasterKey.get_fingerprint (key_env env) fs in
          (Tested success msg fingerprint, fs)
    end in
  ({| diag_ip := ip;
      device_found := match device with Some _ => true | None => false end;
      diag_device_info := device_info <$> device;
      diag_ssh := result |},
   {| reg := reg st; connections := connections st;
      key_files := fs; sent := sent st |}).

(** What one step of a session may do: the records of other identities
    stay, no record disappears, the paired set and the key files of
    others are not its business, and what it sends goes to its own
    device. *)
Definition session_step (sut_id : string) (st st' : state) : Prop :=
  (forall u, u <> sut_id -> devices (reg st') !! u = devices (reg st) !! u)
  /\ (forall u, is_Some (devices (reg st) !! u) ->
                is_Some (devices (reg st') !! u))
  /\ paired_store (reg st') = paired_store (reg st)
  /\ exists replies,
       sent st' = sent st ++ replies
       /\ Forall (fun m => m.1 = sut_id) replies.

End Api.

(* ===================================================================== *)
(** * ssh_setup.py: the authorized_keys store on a SUT *)
(* ===================================================================== *)

Module SshSetup.

(** The line feed. *)
Definition LF : string := String "010"%char EmptyString.





(** [SSHSetup._get_fingerprint]; [listing] is what
    [ssh-keygen -lf -] does on the given input. *)
Definition _get_fingerprint (listing : string -> MasterKey.listing_outcome)
    (public_key : string) : option string :=
  if negb (PyStr.nonempty public_key) then None
  else
    match listing public_key with
    | MasterKey.ListingExit rc out =>
        if rc =? 0 then
          match PyStr.split (PyStr.strip out) with
          | _ :: fp :: _ => Some fp
          | _ => None
          end
        else None
    | MasterKey.ListingError _ => None
    end.

(** The loop of [remove_authorized_key] over the lines of the file:
    [(new_lines, removed)]. *)
Fixpoint remove_lines (listing : string -> MasterKey.listing_outcome)
    (key_fingerprint : string) (lines : list string)
  : list string * bool :=
  match lines with
  | [] => ([], false)
  | line :: rest =>
      let '(new_lines, removed) := remove_lines listing key_fingerprint rest in
      let line := PyStr.strip line in
      if negb (PyStr.nonempty line) || PyStr.startswith line "#"
      then (line :: new_lines, removed)
      else
        match _get_fingerprint listing line with
        | Some fp =>
            if PyStr.nonempty fp && String.eqb fp key_fingerprint
            then (new_lines, true)
            else (line :: new_lines, removed)
        | None => (line :: new_lines, removed)
        end
  end.

(** [SSHSetup.remove_authorized_key] *)
Definition remove_authorized_key (listing : string -> MasterKey.listing_outcome)
    (key_fingerprint : string) (file : option string)
  : (bool * string) * option string :=
  match file with
  | None => ((false, "No authorized_keys file"), file)
  | Some content =>
      let '(new_lines, removed) :=
        remove_lines listing key_fingerprint (PyStr.splitlines content) in
      if removed
      then ((true, "Key removed"), Some (PyStr.join LF new_lines +:+ LF))
      else ((false, "Key not found"), file)
  end.

(** A line that counts as a key in [get_status]: not blank, no comment. *)
Definition is_key_line (line : string) : bool :=
  PyStr.nonempty (PyStr.strip line)
  && negb (PyStr.startswith (PyStr.strip line) "#").

(** The [authorized_keys_count] of [get_status]. *)
Definition authorized_keys_count (file : option string) : nat :=
  match file with
  | None => 0%nat
  | Some content =>
      length (filter (fun line => is_key_line line = true)
                (PyStr.splitlines content))
  end.

(** What a run of [powershell -Command ...] does. *)
Inductive powershell_outcome :=
| PsExit (returncode : Z) (stdout stderr : string)
| PsTimeout
| PsNotFound
| PsError (e : string).

(** The SUT: its platform, its user, and PowerShell, whose answer to a
    command (with its timeout) may depend on the commands run before. *)
Record machine := Machine {
  platform : string;
  username : string;
  powershell : list (string * Z) -> string -> Z -> powershell_outcome
}.

(** Computations that run PowerShell commands: the commands run so far
    are threaded through. *)
Definition Shell (A : Type) : Type :=
  list (string * Z) -> A * list (string * Z).

Definition ret {A} (a : A) : Shell A := fun log => (a, log).

Definition bind {A B} (m : Shell A) (k : A -> Shell B) : Shell B :=
  fun log => let '(a, log') := m log in k a log'.

Notation "'call' x <- m 'then' k" := (bind m (fun x => k))
  (at level 10, x name, m at level 100, k at level 200, only parsing).

(** [SSHSetup._run_powershell]: [(success, stdout, stderr)]. *)
Definition _run_powershell (w : machine) (command : string) (timeout : Z)
  : Shell (bool * string * string) :=
  fun log =>
    (match powershell w log command timeout with
     | PsExit rc out err => (rc =? 0, PyStr.strip out, PyStr.strip err)
     | PsTimeout => (false, "", "Command timed out")
     | PsNotFound => (false, "", "PowerShell not found")
     | PsError e => (false, "", e)
     end,
     log ++ [(command, timeout)]).

(** The commands of the setup, as the source spells them. *)
Definition CHECK_OPENSSH : string :=
  "Get-WindowsCapability -Online | Where-Object Name -like 'OpenSSH.Server*' | Select-Object -ExpandProperty State".

Definition ADD_OPENSSH : string :=
  "Add-WindowsCapability -Online -Name OpenSSH.Server~~~~0.0.1.0".

Definition SSHD_STATUS : string :=
  "(Get-Service sshd -ErrorAction SilentlyContinue).Status".

Definition START_SSHD : string := "Start-Service sshd".

Definition SSHD_START_TYPE : string :=
  "(Get-Service sshd -ErrorAction SilentlyContinue).StartType".

Definition ENABLE_SSHD : string :=
  "Set-Service -Name sshd -StartupType 'Automatic'".

Definition NETWORK_CATEGORY : string :=
  "Get-NetConnectionProfile | Select-Object -ExpandProperty NetworkCategory".

Definition SET_NETWORK_PRIVATE : string :=
  "Get-NetConnectionProfile | Set-NetConnectionProfile -NetworkCategory Private".

Definition FIREWALL_RULE_ENABLED : string :=
  "Get-NetFirewallRule -Name 'OpenSSH-Server-In-TCP' -ErrorAction SilentlyContinue | Select-Object -ExpandProperty Enabled".

Definition UPDATE_FIREWALL_RULE : string :=
  "Set-NetFirewallRule -Name 'OpenSSH-Server-In-TCP' -Profile Any -Enabled True".

Definition NEW_FIREWALL_RULE : string :=
  "
            New-NetFirewallRule -Name 'OpenSSH-Server-In-TCP' `
                -DisplayName 'OpenSSH SSH Server (sshd)' `
                -Description 'Inbound rule for OpenSSH SSH Server' `
                -Enabled True `
                -Direction Inbound `
                -Protocol TCP `
                -Action Allow `
                -LocalPort 22 `
                -Profile Any
            ".

(** [SSHSetup.check_openssh_installed] *)
Definition check_openssh_installed (w : machine) : Shell bool :=
  call r <- _run_powershell w CHECK_OPENSSH 120 then
  ret (r.1.1 && PyStr.contains "Installed" r.1.2).

(** [SSHSetup.install_openssh_server] *)
Definition install_openssh_server (w : machine) : Shell (bool * string) :=
  if negb (String.eqb (platform w) "win32")
  then ret (false, "Only supported on Windows")
  else
    call installed <- check_openssh_installed w then
    if installed then ret (true, "OpenSSH Server already installed")
    else
      call r <- _run_powershell w ADD_OPENSSH 300 then
      if r.1.1 then ret (true, "OpenSSH Server installed")
      else ret (false, "Installation failed: " +:+ r.2).

(** [SSHSetup.is_sshd_running] *)
Definition is_sshd_running (w : machine) : Shell bool :=
  call r <- _run_powershell w SSHD_STATUS 120 then
  ret (r.1.1 && PyStr.contains "Running" r.1.2).

(** [SSHSetup.start_sshd_service] *)
Definition start_sshd_service (w : machine) : Shell (bool * string) :=
  call running <- is_sshd_running w then
  if running then ret (true, "sshd service already running")
  else
    call r <- _run_powershell w START_SSHD 120 then
    if r.1.1 then ret (true, "sshd service started")
    else ret (false, "Failed to start sshd: " +:+ r.2).

(** [SSHSetup.is_sshd_enabled] *)
Definition is_sshd_enabled (w : machine) : Shell bool :=
  call r <- _run_powershell w SSHD_START_TYPE 120 then
  ret (r.1.1 && PyStr.contains "Automatic" r.1.2).

(** [SSHSetup.enable_sshd_autostart] *)
Definition enable_sshd_autostart (w : machine) : Shell (bool * string) :=
  call enabled <- is_sshd_enabled w then
  if enabled then ret (true, "sshd already set to automatic")
  else
    call r <- _run_powershell w ENABLE_SSHD 120 then
    if r.1.1 then ret (true, "sshd set to automatic startup")
    else ret (false, "Failed to enable autostart: " +:+ r.2).

(** [SSHSetup.set_network_profile_private] *)
Definition set_network_profile_private (w : machine) : Shell bool :=
  call r <- _run_powershell w NETWORK_CATEGORY 120 then
  if r.1.1 && PyStr.contains "Private" r.1.2 then ret true
  else
    call r <- _run_powershell w SET_NETWORK_PRIVATE 120 then
    ret r.1.1.

(** [SSHSetup.configure_firewall_rule] *)
Definition configure_firewall_rule (w : machine) : Shell (bool * string) :=
  call r <- _run_powershell w FIREWALL_RULE_ENABLED 120 then
  if r.1.1 && PyStr.contains "True" r.1.2 then
    call r <- _run_powershell w UPDATE_FIREWALL_RULE 120 then
    if r.1.1 then ret (true, "Firewall rule updated for all profiles")
    else ret (false, "Failed to update firewall rule: " +:+ r.2)
  else
    call r <- _run_powershell w NEW_FIREWALL_RULE 120 then
    if r.1.1 then ret (true, "Firewall rule created")
    else ret (false, "Failed to create firewall rule: " +:+ r.2).

(** The dictionary of [get_status] (the path is a constant). *)
Record status := Status {
  openssh_installed : bool;
  sshd_running : bool;
  sshd_enabled : bool;
  keys_count : nat;
  status_username : string
}.

(** [SSHSetup.get_status] *)
Definition get_status (w : machine) (file : option string) : Shell status :=
  let count := authorized_keys_count file in
  call installed <- check_openssh_installed w then
  call running <- is_sshd_running w then
  call enabled <- is_sshd_enabled w then
  ret {| openssh_installed := installed; sshd_running := running;
         sshd_enabled := enabled; keys_count := count;
         status_username := username w |}.

(** One entry of the [steps] list of [run_full_setup]. *)
Record step_result := Step {
  step : string;
  step_success : bool;
  step_message : string
}.

(** The dictionary [run_full_setup] returns. *)
Record setup_result := Setup {
  setup_success : bool;
  setup_error : option string;
  steps : list step_result;
  setup_status : option status
}.

(** [SSHSetup.run_full_setup] *)
Definition run_full_setup (w : machine) (file : option string)
  : Shell setup_result :=
  if negb (String.eqb (platform w) "win32") then
    ret {| setup_success := false;
           setup_error := Some "SSH setup only supported on Windows";
           steps := []; setup_status := None |}
  else
    call r1 <- install_openssh_server w then
    let steps1 := [Step "install_openssh" r1.1 r1.2] in
    if negb r1.1 then
      ret {| setup_success := false; setup_error := Some r1.2;
             steps := steps1; setup_status := None |}
    else
      call r2 <- start_sshd_service w then
      let steps2 := steps1 ++ [Step "start_sshd" r2.1 r2.2] in
      if negb r2.1 then
        ret {| setup_success := false; setup_error := Some r2.2;
               steps := steps2; setup_status := None |}
      else
        call r3 <- enable_sshd_autostart w then
        let steps3 := steps2 ++ [Step "enable_autostart" r3.1 r3.2] in
        call r4 <- configure_firewall_rule w then
        let steps4 := steps3 ++ [Step "configure_firewall" r4.1 r4.2] in
        call network_private <- set_network_profile_private w then
        let steps5 :=
          steps4
          ++ [Step "set_network_private" network_private
                (if network_private then "Network set to Private"
                 else "Could not set network to Private (may need admin)")] in
        call st <- get_status w file then
        ret {| setup_success := true; setup_error := None;
               steps := steps5; setup_status := Some st |}.

(** A key line of the store whose fingerprint is the given one. *)
Definition has_fingerprint (listing : string -> MasterKey.listing_outcome)
    (key_fingerprint line : string) : bool :=
  is_key_line line
  && bool_decide
       (_get_fingerprint listing (PyStr.strip line) = Some key_fingerprint).

End SshSetup.

(* ===================================================================== *)
(** * Concrete environments, payloads and states *)
(* ===================================================================== *)

Module Scenario.
Import Registry Api.

(** A Master on which [ssh-keygen] works. *)
Definition benign : MasterKey.environment :=
  {| MasterKey.mkdir_error := None; MasterKey.hostname := "lab";
     MasterKey.keygen :=
       MasterKey.KeygenExit 0 "" "" "PRIVATE" "ssh-ed25519 AAAAC3 master@lab";
     MasterKey.listing :=
       MasterKey.ListingExit 0 "256 SHA256:abc master@lab (ED25519)" |}.

(** A Master without OpenSSH. *)
Definition hostile : MasterKey.environment :=
  {| MasterKey.mkdir_error := None; MasterKey.hostname := "lab";
     MasterKey.keygen := MasterKey.KeygenNotFound;
     MasterKey.listing := MasterKey.ListingError "ssh-keygen not found" |}.

Definition no_files : MasterKey.key_files :=
  {| MasterKey.private_key := None; MasterKey.public_key := None |}.

(** Requests at time 100 (and 160), with and without a usable key. *)
Definition env_ok : environment :=
  {| now := 100; key_manager_error := None; key_env := benign;
     add_key := AddKeyReturns true |}.

Definition env_later : environment :=
  {| now := 160; key_manager_error := None; key_env := benign;
     add_key := AddKeyReturns true |}.

Definition env_no_keygen : environment :=
  {| now := 100; key_manager_error := None; key_env := hostile;
     add_key := AddKeyReturns true |}.

Definition env_manager_raises : environment :=
  {| now := 100;
     key_manager_error := Some "Could not determine home directory.";
     key_env := benign; add_key := AddKeyReturns true |}.

(** The empty JSON object, and a full registration of a device at
    10.0.0.5. *)
Definition payload_empty : init_payload :=
  {| p_ip := None; p_port := None; p_capabilities := None;
     p_hostname := None; p_cpu_model := None; p_display_name := None;
     p_ssh_public_key := None; p_ssh_key_fingerprint := None |}.

Definition payload_at (address host : string) : init_payload :=
  {| p_ip := Some address; p_port := Some 8080;
     p_capabilities := Some ["gpu"]; p_hostname := Some host;
     p_cpu_model := None; p_display_name := None;
     p_ssh_public_key := None; p_ssh_key_fingerprint := None |}.

(** The service after [dev-A] has registered from 10.0.0.5. *)
Definition one_device : state :=
  (open_session env_ok "dev-A" (RecvObject (payload_at "10.0.0.5" "sut-a"))
     (initial 10)).2.

(** ... and after [dev-B] has then registered from the same address. *)
Definition two_devices : state :=
  (open_session env_ok "dev-B" (RecvObject (payload_at "10.0.0.5" "sut-b"))
     one_device).2.

(** The service after [dev-A] has registered on a Master without
    OpenSSH: no key pair could be generated. *)
Definition unkeyed_device : state :=
  (open_session env_no_keygen "dev-A"
     (RecvObject (payload_at "10.0.0.5" "sut-a")) (initial 10)).2.

(** ... and after an operator has paired [dev-A]. *)
Definition paired_device : state :=
  (pair_sut 120 "dev-A" "operator" one_device).2.

(** Messages of the loop. *)
Definition msg_heartbeat : gmap string json :=
  <["seq" := JNum 7]> (<["type" := JStr "heartbeat"]> ∅).

Definition msg_installed : gmap string json :=
  <["success" := JBool true]> (<["type" := JStr "master_key_installed"]> ∅).


(** The record of [dev-A] in [one_device]. *)
Definition device_a : SUTDevice :=
  {| unique_id := "dev-A"; ip := "10.0.0.5"; port := 8080;
     hostname := "sut-a"; cpu_model := None; display_name := "sut-a";
     capabilities := ["gpu"]; is_online := true; last_seen := 100;
     is_paired := false; paired_by := None; paired_at := None;
     session_id := 1; last_ip_change := None; binding_history := [];
     ssh_public_key := None; ssh_fingerprint := None;
     master_key_installed := false; master_key_installed_at := None |}.

(** A Windows SUT on which OpenSSH is installed and running, and on
    which every other command is refused. *)
Definition locked_down : SshSetup.machine :=
  {| SshSetup.platform := "win32"; SshSetup.username := "lab";
     SshSetup.powershell := fun _ command _ =>
       if String.eqb command SshSetup.CHECK_OPENSSH
       then SshSetup.PsExit 0 "Installed" ""
       else if String.eqb command SshSetup.SSHD_STATUS
       then SshSetup.PsExit 0 "Running" ""
       else SshSetup.PsExit 1 "" "Access is denied" |}.

(** An [ssh-keygen -lf -] that knows two keys. *)
Definition two_key_listing (line : string) : MasterKey.listing_outcome :=
  if PyStr.contains "AAAAC3" line
  then MasterKey.ListingExit 0 "256 SHA256:abc master@lab (ED25519)"
  else if PyStr.contains "BBBB" line
  then MasterKey.ListingExit 0 "2048 SHA256:xyz other@host (RSA)"
  else MasterKey.ListingExit 255 "".

(** A store with a comment, a blank line and the two keys. *)
Definition two_key_store : string :=
  "# lab keys" +:+ SshSetup.LF +:+ SshSetup.LF
  +:+ "ssh-rsa BBBB other@host" +:+ SshSetup.LF
  +:+ "  ssh-ed25519 AAAAC3 master@lab" +:+ SshSetup.LF.

(** The service after [dev-A] has reconnected and the clean-up of its
    first session has run after the second registration: the second
    session's heartbeat has brought the record back online, but the
    connection manager holds no session for the identity. *)
Definition stale_session : state :=
  run [OpOpen env_ok "dev-A" (RecvObject (payload_at "10.0.0.5" "sut-a"));
       OpOpen env_ok "dev-A" (RecvObject (payload_at "10.0.0.5" "sut-a"));
       OpClose "dev-A";
       OpMessage env_later "dev-A" (payload_at "10.0.0.5" "sut-a")
         msg_heartbeat]
    (initial 10).



End Scenario.

(* ===================================================================== *)
(** * Properties *)
(* ===================================================================== *)

(** ** Strings *)

Section string_facts.
Import PyStr.

Example strip_ex : strip "  ssh-rsa AAAA  me  " = "ssh-rsa AAAA  me".
Proof. reflexivity. Qed.

Example split_ex : split " ssh-rsa   AAAA me " = ["ssh-rsa"; "AAAA"; "me"].
Proof. reflexivity. Qed.

Example contains_ex : contains "AAAA" "x ssh-rsa AAAA me" = true.
Proof. reflexivity. Qed.

Lemma append_nil_l (s : string) : "" +:+ s = s.
Proof. reflexivity. Qed.

Lemma append_cons (c : ascii) (a b : string) :
  String c a +:+ b = String c (a +:+ b).
Proof. reflexivity. Qed.

Lemma append_nil_r (s : string) : s +:+ "" = s.
Proof.
  induction s as [|c s IH]; [done|]. by rewrite append_cons, IH.
Qed.

Lemma append_assoc (a b c : string) : (a +:+ b) +:+ c = a +:+ (b +:+ c).
Proof.
  induction a as [|x a IH]; [done|]. by rewrite !append_cons, IH.
Qed.

Lemma startswith_spec (s p : string) :
  startswith s p = true <-> exists r, s = p +:+ r.
Proof.
  revert s. induction p as [|a p IH]; intros s.
  - destruct s; split; eauto.
  - destruct s as [|b s]; simpl.
    + split; [done|]. intros [r Hr]. by rewrite append_cons in Hr.
    + rewrite andb_true_iff, IH. split.
      * intros [Hab [r ->]]. apply Ascii.eqb_eq in Hab as ->. by exists r.
      * intros [r Hr]. rewrite append_cons in Hr. injection Hr as -> ->.
        split; [apply Ascii.eqb_refl|eauto].
Qed.

Lemma contains_nil (k : string) : contains k "" = startswith "" k.
Proof. unfold contains. apply orb_false_r. Qed.

Lemma contains_cons (k : string) (c : ascii) (s : string) :
  contains k (String c s) = startswith (String c s) k || contains k s.
Proof. reflexivity. Qed.

Lemma contains_spec (k s : string) :
  contains k s = true <-> exists a r, s = a +:+ k +:+ r.
Proof.
  induction s as [|c s IH].
  - rewrite contains_nil, startswith_spec. split.
    + intros [r Hr]. by exists "", r.
    + intros [[|x a] [r Hr]]; [by exists r|by rewrite append_cons in Hr].
  - rewrite contains_cons, orb_true_iff, IH, startswith_spec. split.
    + intros [[r Hr]|[a [r Hr]]].
      * by exists "", r.
      * exists (String c a), r. by rewrite append_cons, Hr.
    + intros [[|x a] [r Hr]].
      * left. by exists r.
      * right. rewrite append_cons in Hr. injection Hr as -> ->. by exists a, r.
Qed.

Lemma contains_refl (s : string) : contains s s = true.
Proof. apply contains_spec. exists "", "". by rewrite append_nil_r. Qed.



End string_facts.

(** ** The Master's key pair *)

Section master_key_facts.
Import MasterKey Scenario.

Lemma ensure_present (env : environment) (fs : key_files) :
  both_exist fs = true ->
  ensure_key_exists env fs = ((true, "Key already exists"), fs).
Proof. intros H. unfold ensure_key_exists. by rewrite H. Qed.

Lemma ensure_success_both_exist (env : environment) (fs : key_files) :
  (ensure_key_exists env fs).1.1 = true ->
  both_exist (ensure_key_exists env fs).2 = true.
Proof.
  unfold ensure_key_exists.
  destruct (both_exist fs) eqn:Hb; [done|].
  destruct (mkdir_error env); [done|].
  destruct (keygen env) as [rc out err priv pub| | |e]; try done.
  by destruct (rc =? 0).
Qed.

Lemma ensure_failure_keeps_files (env : environment) (fs : key_files) :
  (ensure_key_exists env fs).1.1 = false ->
  (ensure_key_exists env fs).2 = fs.
Proof.
  unfold ensure_key_exists.
  destruct (both_exist fs) eqn:Hb; [done|].
  destruct (mkdir_error env); [done|].
  destruct (keygen env) as [rc out err priv pub| | |e]; try done.
  by destruct (rc =? 0).
Qed.

(** C7. [ensure_key_exists] is a lazy one-time initialiser: with both
    files present it answers success and touches nothing; with the pair
    absent and [ssh-keygen] doing its work it leaves the generated pair
    in place (and a failed attempt leaves the files alone); after any
    successful call, every later call is a no-op that answers success. *)
Theorem ensure_key_exists_once (env env' : environment) (fs : key_files) :
  (both_exist fs = true ->
     ensure_key_exists env fs = ((true, "Key already exists"), fs))
  /\ (both_exist fs = false -> mkdir_error env = None ->
      forall out err priv pub,
        keygen env = KeygenExit 0 out err priv pub ->
        ensure_key_exists env fs =
          ((true, "Generated new key: master@" +:+ hostname env),
           {| private_key := Some priv; public_key := Some pub |}))
  /\ ((ensure_key_exists env fs).1.1 = false ->
      (ensure_key_exists env fs).2 = fs)
  /\ ((ensure_key_exists env fs).1.1 = true ->
      ensure_key_exists env' (ensure_key_exists env fs).2 =
        ((true, "Key already exists"), (ensure_key_exists env fs).2)).
Proof.
  split; [apply ensure_present|].
  split.
  { intros Hb Hm out err priv pub Hk. unfold ensure_key_exists.
    by rewrite Hb, Hm, Hk. }
  split; [apply ensure_failure_keeps_files|].
  intros Hs. apply ensure_present. by apply ensure_success_both_exist.
Qed.

Lemma ensure_key_exists_once_witness :
  ensure_key_exists benign no_files =
    ((true, "Generated new key: master@lab"),
     {| private_key := Some "PRIVATE";
        public_key := Some "ssh-ed25519 AAAAC3 master@lab" |})
  /\ ensure_key_exists hostile (ensure_key_exists benign no_files).2 =
       ((true, "Key already exists"), (ensure_key_exists benign no_files).2).
Proof.
  destruct (ensure_key_exists_once benign hostile no_files)
    as (_ & Hgen & _ & Hagain).
  split.
  - apply (Hgen eq_refl eq_refl "" "" "PRIVATE" "ssh-ed25519 AAAAC3 master@lab").
    reflexivity.
  - apply Hagain. reflexivity.
Defined.

End master_key_facts.

(** ** The SSE fan-out *)

Section sse_facts.
Import Sse.

Lemma lookup_discard_all (dead : list positive) (s : clients) (i : positive) :
  discard_all dead s !! i = if decide (i ∈ dead) then None else s !! i.
Proof.
  unfold discard_all.
  induction dead as [|j dead IH]; cbn [fold_right].
  - rewrite decide_False; [done|]. apply not_elem_of_nil.
  - destruct (decide (j = i)) as [->|Hne].
    + rewrite lookup_delete_eq, decide_True; [done|]. left.
    + rewrite lookup_delete_ne by done. rewrite IH.
      destruct (decide (i ∈ dead)) as [Hin|Hin].
      * rewrite decide_True; [done|]. by right.
      * rewrite decide_False; [done|].
        intros [->|H]%elem_of_cons; done.
Qed.

Lemma enqueue_all_dead (e : string) (cs : list (positive * queue)) (i : positive) :
  i ∈ (enqueue_all e cs).2 -> i ∈ cs.*1.
Proof.
  induction cs as [|[j q] cs IH]; simpl.
  - intros H. by apply elem_of_nil in H.
  - destruct (enqueue_all e cs) as [kept dead] eqn:E. simpl in *.
    destruct (put_nowait q e); simpl.
    + intros Hi. right. by apply IH.
    + intros [->|Hi]%elem_of_cons; [left|right; by apply IH].
Qed.

Lemma enqueue_all_lookup (e : string) (cs : list (positive * queue)) (i : positive) :
  NoDup cs.*1 ->
  discard_all (enqueue_all e cs).2
    (list_to_map (enqueue_all e cs).1 : clients) !! i
  = (list_to_map cs : clients) !! i ≫= fun q => put_nowait q e.
Proof.
  induction cs as [|[j q] cs IH]; intros Hnd.
  - rewrite lookup_discard_all, decide_False by apply not_elem_of_nil.
    done.
  - rewrite fmap_cons in Hnd. apply NoDup_cons in Hnd as [Hj Hnd].
    specialize (IH Hnd).
    pose proof (enqueue_all_dead e cs) as Hdead.
    rewrite lookup_discard_all in IH. rewrite lookup_discard_all.
    cbn [enqueue_all].
    destruct (enqueue_all e cs) as [kept dead] eqn:E.
    cbn [fst snd] in IH, Hdead, Hj.
    destruct (put_nowait q e) as [q'|] eqn:Hput;
      cbn [fst snd list_to_map foldr uncurry].
    + destruct (decide (j = i)) as [->|Hne].
      * rewrite !lookup_insert_eq.
        change (Some q ≫= fun q0 => put_nowait q0 e) with (put_nowait q e).
        rewrite Hput.
        rewrite decide_False; [done|]. intros Hin. apply Hj. by apply Hdead.
      * rewrite !lookup_insert_ne by done. exact IH.
    + destruct (decide (j = i)) as [->|Hne].
      * rewrite !lookup_insert_eq.
        change (Some q ≫= fun q0 => put_nowait q0 e) with (put_nowait q e).
        rewrite Hput.
        rewrite decide_True; [done|]. left.
      * rewrite !lookup_insert_ne by done.
        destruct (decide (i ∈ dead)) as [Hin|Hin].
        -- rewrite decide_True; [done|]. by right.
        -- rewrite decide_False; [done|].
           intros [->|H]%elem_of_cons; done.
Qed.

(** C10. One broadcast leaves every observer either with the event at
    the tail of its queue, when its own enqueue succeeds, or out of the
    observer set, when its own enqueue raises; what happens to one
    observer does not depend on any other.  The enqueue is
    [put_nowait], which answers at once and never waits. *)
Theorem broadcast_isolates_failures (event_data : string) (s : clients)
    (i : positive) :
  broadcast_sse_event event_data s !! i
  = s !! i ≫= fun q => put_nowait q event_data.
Proof.
  unfold broadcast_sse_event.
  pose proof (enqueue_all_lookup event_data (map_to_list s) i
                (NoDup_fst_map_to_list s)) as H.
  destruct (enqueue_all event_data (map_to_list s)) as [updated dead].
  simpl in H. rewrite H. by rewrite list_to_map_to_list.
Qed.

Example broadcast_ex :
  let full_q := {| maxsize := 1; items := ["old"] |} in
  let free_q := {| maxsize := 0; items := ["old"] |} in
  broadcast_sse_event "ev" (<[1%positive := full_q]> (<[2%positive := free_q]> ∅))
  = <[2%positive := {| maxsize := 0; items := ["old"; "ev"] |}]> ∅.
Proof. by vm_compute. Qed.

End sse_facts.


(** ** The registry under the endpoints *)

Section registry_facts.
Import Registry Api Scenario.

Lemma register_device_devices now a p uid caps h cpu dn pk fp (r : registry) :
  devices (register_device now a p uid caps h cpu dn pk fp r).2
  = <[uid := (register_device now a p uid caps h cpu dn pk fp r).1]> (devices r).
Proof. reflexivity. Qed.

Lemma register_device_ip now a p uid caps h cpu dn pk fp (r : registry) :
  ip (register_device now a p uid caps h cpu dn pk fp r).1 = a.
Proof. unfold register_device. by destruct (devices r !! uid). Qed.

Lemma register_device_sound now a p uid caps h cpu dn pk fp (r : registry) :
  index_sound r ->
  index_sound (register_device now a p uid caps h cpu dn pk fp r).2.
Proof.
  intros Hs b u Hb.
  pose proof (register_device_ip now a p uid caps h cpu dn pk fp r) as Hip.
  rewrite register_device_devices.
  destruct (register_device now a p uid caps h cpu dn pk fp r) as [dev r'] eqn:E.
  unfold register_device in E. injection E as Hdev Hr'. subst r'.
  cbn [snd fst ip_to_id_mapping] in *.
  destruct (decide (b = a)) as [->|Hne].
  { rewrite lookup_insert_eq in Hb. injection Hb as <-.
    exists dev. by rewrite lookup_insert_eq. }
  rewrite lookup_insert_ne in Hb by done.
  assert (ip_to_id_mapping r !! b = Some u
          /\ (u = uid -> forall d, devices r !! uid = Some d -> ip d <> b))
    as [Hold Hmoved].
  { destruct (devices r !! uid) as [d|] eqn:Hd; [|done].
    destruct (String.eqb_spec a (ip d)) as [Heq|Hneq].
    { split; [done|]. intros _ d' [= <-]. congruence. }
    destruct (ip_to_id_mapping r !! ip d) as [owner|] eqn:Ho.
    - destruct (String.eqb_spec owner uid) as [->|Hown].
      + destruct (decide (b = ip d)) as [->|Hbd].
        * by rewrite lookup_delete_eq in Hb.
        * rewrite lookup_delete_ne in Hb by done.
          split; [done|]. intros _ d' [= <-]. done.
      + split; [done|]. intros -> d' [= <-] Hb'.
        rewrite Hb' in Ho. congruence.
    - split; [done|]. intros _ d' [= <-] Hb'. rewrite Hb' in Ho. congruence. }
  destruct (Hs b u Hold) as [d [Hd Hdip]].
  destruct (decide (u = uid)) as [->|Hu].
  - exfalso. by apply (Hmoved eq_refl d Hd).
  - exists d. by rewrite lookup_insert_ne.
Qed.

Lemma alter_sound (f : SUTDevice -> SUTDevice) (uid : string) (r : registry) :
  (forall d, ip (f d) = ip d) ->
  index_sound r ->
  index_sound (with_devices (alter f uid (devices r)) r).
Proof.
  intros Hf Hs a u Ha. cbn in Ha. destruct (Hs a u Ha) as [d [Hd Hip]].
  cbn. destruct (decide (uid = u)) as [->|Hne].
  - exists (f d). rewrite lookup_alter_eq, Hd. split; [done|]. by rewrite Hf.
  - exists d. by rewrite lookup_alter_ne.
Qed.

Lemma delete_sut_sound (uid : string) (force : bool) (st : state) :
  index_sound (reg st) -> index_sound (reg (delete_sut uid force st).2).
Proof.
  intros Hs. unfold delete_sut, get_device_by_id.
  destruct (devices (reg st) !! uid) as [d|] eqn:Hd; [|done].
  destruct (is_paired d && negb force); [done|].
  assert (index_sound
            {| devices := delete uid (devices (reg st));
               ip_to_id_mapping :=
                 match ip_to_id_mapping (reg st) !! ip d with
                 | Some _ => delete (ip d) (ip_to_id_mapping (reg st))
                 | None => ip_to_id_mapping (reg st)
                 end;
               paired_store := paired_store (reg st);
               history_cap := history_cap (reg st) |}) as Hnew.
  { intros a u Ha. cbn in Ha |- *.
    assert (ip_to_id_mapping (reg st) !! a = Some u /\ a <> ip d) as [Ha' Hne].
    { destruct (ip_to_id_mapping (reg st) !! ip d) eqn:Ho.
      - destruct (decide (a = ip d)) as [->|Hne].
        + by rewrite lookup_delete_eq in Ha.
        + by rewrite lookup_delete_ne in Ha.
      - split; [done|]. intros ->. congruence. }
    destruct (Hs a u Ha') as [d' [Hd' Hip]].
    exists d'. split; [|done].
    rewrite lookup_delete_ne; [done|]. intros <-. congruence. }
  destruct (is_paired d); [|exact Hnew].
  intros a u Ha. exact (Hnew a u Ha).
Qed.

Lemma open_session_sound env sut_id first (st : state) :
  index_sound (reg st) -> index_sound (reg (open_session env sut_id first st).2).
Proof.
  intros Hs. destruct first as [| |init_data]; cbn [open_session snd].
  - by apply alter_sound.
  - by apply alter_sound.
  - destruct (register_device _ _ _ _ _ _ _ _ _ _ (reg (ws_connect sut_id st)))
      as [device r] eqn:E.
    cbn [with_reg reg key_files].
    destruct (master_key_block env device _) as [[[pk fp] re] fs].
    cbn [snd send_json reg].
    change r with (device, r).2. rewrite <- E.
    by apply register_device_sound.
Qed.

Lemma on_message_sound env sut_id init_data message (st : state) :
  index_sound (reg st) ->
  index_sound (reg (on_message env sut_id init_data message st)).
Proof.
  intros Hs. unfold on_message.
  destruct (message !! "type") as [[| | |msg_type| |]|]; try done.
  destruct (String.eqb msg_type "heartbeat").
  { destruct (register_device _ _ _ _ _ _ _ _ _ _ (reg st)) as [device r] eqn:E.
    cbn [send_json with_reg reg].
    change r with (device, r).2. rewrite <- E.
    by apply register_device_sound. }
  destruct (String.eqb msg_type "status_update"); [done|].
  destruct (String.eqb msg_type "master_key_installed"); [|done].
  destruct (truthy _); [|done].
  cbn [send_json with_reg reg]. by apply alter_sound.
Qed.

Lemma trigger_ssh_exchange_reg env uid request (st : state) :
  reg (trigger_ssh_exchange env uid request st).2 = reg st.
Proof.
  unfold trigger_ssh_exchange, get_device_by_id.
  destruct (devices (reg st) !! uid) as [d|]; [|done].
  destruct (negb (is_online d)); [done|].
  destruct (master_key_installed d && negb _); [done|].
  destruct (key_manager_error env); [done|].
  destruct (MasterKey.get_public_key _ _) as [pk fs].
  destruct (MasterKey.get_fingerprint _ _) as [fp fs'].
  destruct pk as [pk|]; [|done].
  destruct (PyStr.nonempty pk); [|done].
  unfold send_to_device. cbn [connections].
  by destruct (decide (uid ∈ connections st)).
Qed.

Lemma save_paired_sound (r : registry) :
  index_sound r -> index_sound (save_paired_devices r).
Proof. intros Hs a u Ha. exact (Hs a u Ha). Qed.

Lemma pair_sut_sound now uid paired_by (st : state) :
  index_sound (reg st) -> index_sound (reg (pair_sut now uid paired_by st).2).
Proof.
  intros Hs. unfold pair_sut, pair_device.
  destruct (devices (reg st) !! uid); [|done].
  cbn [negb snd with_reg reg]. by apply save_paired_sound, alter_sound.
Qed.

Lemma unpair_sut_sound uid (st : state) :
  index_sound (reg st) -> index_sound (reg (unpair_sut uid st).2).
Proof.
  intros Hs. unfold unpair_sut, unpair_device.
  destruct (devices (reg st) !! uid); [|done].
  cbn [negb snd with_reg reg]. by apply save_paired_sound, alter_sound.
Qed.

Lemma step_sound (o : op) (st : state) :
  index_sound (reg st) -> index_sound (reg (step o st)).
Proof.
  intros Hs. destruct o; cbn [step].
  - by apply open_session_sound.
  - by apply on_message_sound.
  - by apply alter_sound.
  - by apply delete_sut_sound.
  - by rewrite trigger_ssh_exchange_reg.
  - by apply pair_sut_sound.
  - by apply unpair_sut_sound.
Qed.

Lemma run_sound (ops : list op) (st : state) :
  index_sound (reg st) -> index_sound (reg (run ops st)).
Proof.
  revert st. induction ops as [|o ops IH]; intros st Hs; [done|].
  cbn [run fold_left]. apply IH. by apply step_sound.
Qed.

End registry_facts.

Section delete_facts.
Import Registry Api Scenario.

(** C2. The failing run: [dev-A] registers from 10.0.0.5, [dev-B] then
    registers from the same address and takes over the index entry, and
    [dev-A] is deleted.  [delete_sut] tests only that the address of the
    deleted record is indexed, not whose entry it is: the entry owned by
    [dev-B] is removed, and [dev-B], still recorded at 10.0.0.5, can no
    longer be found by its address. *)
Theorem delete_sut_drops_foreign_index_entry :
  (ip <$> devices (reg two_devices) !! "dev-A") = Some "10.0.0.5"
  /\ ip_to_id_mapping (reg two_devices) !! "10.0.0.5" = Some "dev-B"
  /\ (ip <$> devices (reg (delete_sut "dev-A" false two_devices).2) !! "dev-B")
     = Some "10.0.0.5"
  /\ ip_to_id_mapping (reg (delete_sut "dev-A" false two_devices).2) !! "10.0.0.5"
     = None
  /\ get_device_by_ip "10.0.0.5" (reg (delete_sut "dev-A" false two_devices).2)
     = None.
Proof. by vm_compute. Qed.

Lemma delete_sut_unknown (st : state) (unique_id : string) (force : bool) :
  devices (reg st) !! unique_id = None ->
  delete_sut unique_id force st
  = (HTTPException 404 ("SUT " +:+ unique_id +:+ " not found"), st).
Proof. intros H. unfold delete_sut, get_device_by_id. by rewrite H. Qed.

Lemma elem_of_saved_paired (r : registry) (uid : string) :
  uid ∈ paired_store (save_paired_devices r)
  <-> exists d, devices r !! uid = Some d /\ is_paired d = true.
Proof.
  cbn [save_paired_devices paired_store].
  rewrite elem_of_dom. unfold is_Some.
  split.
  - intros [d Hd]. apply map_lookup_filter_Some in Hd as [Hd Hp]. eauto.
  - intros [d [Hd Hp]]. exists d. by apply map_lookup_filter_Some.
Qed.

(** C9. Deleting an unknown identity answers 404 and touches nothing.
    For a paired record, a delete without [force] answers 400 and touches
    nothing; with [force] it succeeds, the record leaves the primary map,
    the entry of its address leaves the secondary index, no other record
    and no other index entry changes, and the durable paired set is
    rewritten to the identities of the records that are still there and
    paired. *)
Theorem delete_sut_guard (st : state) (unique_id : string) (force : bool) :
  (devices (reg st) !! unique_id = None ->
     delete_sut unique_id force st
     = (HTTPException 404 ("SUT " +:+ unique_id +:+ " not found"), st))
  /\ (forall d, devices (reg st) !! unique_id = Some d -> is_paired d = true ->
      delete_sut unique_id false st
      = (HTTPException 400
           ("SUT " +:+ unique_id
            +:+ " is paired. Use force=true to delete paired devices."), st)
      /\ (delete_sut unique_id true st).1
         = Response {| del_success := true;
                       del_message := "SUT " +:+ unique_id +:+ " deleted successfully";
                       was_paired := true |}
      /\ devices (reg (delete_sut unique_id true st).2) !! unique_id = None
      /\ (forall other, other <> unique_id ->
            devices (reg (delete_sut unique_id true st).2) !! other
            = devices (reg st) !! other)
      /\ ip_to_id_mapping (reg (delete_sut unique_id true st).2) !! ip d = None
      /\ (forall a, a <> ip d ->
            ip_to_id_mapping (reg (delete_sut unique_id true st).2) !! a
            = ip_to_id_mapping (reg st) !! a)
      /\ (forall uid,
            uid ∈ paired_store (reg (delete_sut unique_id true st).2)
            <-> exists d', devices (reg (delete_sut unique_id true st).2) !! uid
                           = Some d' /\ is_paired d' = true)
      /\ connections (delete_sut unique_id true st).2 = connections st
      /\ sent (delete_sut unique_id true st).2 = sent st).
Proof.
  split; [apply delete_sut_unknown|].
  intros d Hd Hp. unfold delete_sut, get_device_by_id. rewrite Hd, Hp.
  cbn [andb negb fst snd with_reg reg connections sent].
  split; [done|]. split; [done|].
  split; [apply lookup_delete_eq|].
  split; [intros other Hne; by apply lookup_delete_ne|].
  split.
  { cbn. destruct (ip_to_id_mapping (reg st) !! ip d) eqn:Ho;
      [apply lookup_delete_eq|done]. }
  split.
  { intros a Hne. cbn.
    destruct (ip_to_id_mapping (reg st) !! ip d) eqn:Ho; [|done].
    by apply lookup_delete_ne. }
  split; [|done].
  intros uid. rewrite elem_of_saved_paired. reflexivity.
Qed.

Example paired_device_record :
  devices (reg paired_device) !! "dev-A"
  = Some (set_pairing true (Some "operator") (Some 120) device_a).
Proof. by vm_compute. Qed.

Lemma delete_sut_guard_witness :
  delete_sut "dev-A" false paired_device
  = (HTTPException 400
       ("SUT " +:+ "dev-A"
        +:+ " is paired. Use force=true to delete paired devices."),
     paired_device)
  /\ devices (reg (delete_sut "dev-A" true paired_device).2) !! "dev-A" = None
  /\ ip_to_id_mapping (reg (delete_sut "dev-A" true paired_device).2)
       !! "10.0.0.5" = None
  /\ delete_sut "ghost" true paired_device
     = (HTTPException 404 ("SUT " +:+ "ghost" +:+ " not found"), paired_device).
Proof.
  destruct (delete_sut_guard paired_device "dev-A" true) as [_ Hpaired].
  destruct (Hpaired _ paired_device_record eq_refl)
    as (Hrefused & _ & Hgone & _ & Hindex & _).
  destruct (delete_sut_guard paired_device "ghost" true) as [Hunknown _].
  split; [exact Hrefused|]. split; [exact Hgone|]. split; [exact Hindex|].
  apply Hunknown. by vm_compute.
Defined.

(** Whoever owns the index entry of the deleted record's address, a
    delete that goes through removes it. *)
Lemma delete_sut_unindexes_address (st : state) (unique_id : string)
    (force : bool) (d : SUTDevice) :
  devices (reg st) !! unique_id = Some d ->
  is_paired d && negb force = false ->
  ip_to_id_mapping (reg (delete_sut unique_id force st).2) !! ip d = None.
Proof.
  intros Hd Hgo. unfold delete_sut, get_device_by_id. rewrite Hd, Hgo.
  cbn [snd with_reg reg].
  assert (match ip_to_id_mapping (reg st) !! ip d with
          | Some _ => delete (ip d) (ip_to_id_mapping (reg st))
          | None => ip_to_id_mapping (reg st)
          end !! ip d = None) as Hnone.
  { destruct (ip_to_id_mapping (reg st) !! ip d) eqn:Ho;
      [apply lookup_delete_eq|done]. }
  by destruct (is_paired d).
Qed.

End delete_facts.

(** ** Forced key re-exchange *)

Section exchange_facts.
Import Registry Api Scenario.

Example one_device_record : devices (reg one_device) !! "dev-A" = Some device_a.
Proof. by vm_compute. Qed.

(** C1, as stated, fails, in two ways.  [dev-A] is online with a live
    session, the operator forces a re-exchange, but the Master has no key
    pair and cannot generate one: the request ends in a 500 and nothing
    is sent.  And [dev-A] is online, the Master has its key, but the
    connection manager holds no session for the device: the request ends
    in a 500 and nothing is sent. *)
Lemma forced_exchange_counterexample :
  ((is_online <$> devices (reg unkeyed_device) !! "dev-A") = Some true
   /\ bool_decide ("dev-A" ∈ connections unkeyed_device) = true
   /\ trigger_ssh_exchange env_no_keygen "dev-A" (Some true) unkeyed_device
      = (HTTPException 500
           "Failed to get Master key: 500: Master SSH key not available",
         unkeyed_device))
  /\ ((is_online <$> devices (reg stale_session) !! "dev-A") = Some true
      /\ bool_decide ("dev-A" ∈ connections stale_session) = false
      /\ (MasterKey.get_public_key (key_env env_ok)
            (key_files stale_session)).1
         = Some "ssh-ed25519 AAAAC3 master@lab"
      /\ trigger_ssh_exchange env_ok "dev-A" (Some true) stale_session
         = (HTTPException 500 "Failed to send key exchange request",
            stale_session)).
Proof. by vm_compute. Qed.

(** C1, amended. A forced re-exchange never changes the registry.  For an
    offline device it answers 400 and sends nothing.  For an online device
    with a live session, when the Master's public key can be read, exactly
    one [install_master_key] message, carrying that key and [force], is
    added to what was sent, on the session of that device.  For an online
    device, when the Master's public key cannot be obtained (the key
    manager raises, or gives no key or an empty one) or the device has no
    live session, it answers 500 and sends nothing. *)
Theorem forced_exchange (env : environment) (unique_id : string)
    (st : state) (d : SUTDevice) :
  devices (reg st) !! unique_id = Some d ->
  reg (trigger_ssh_exchange env unique_id (Some true) st).2 = reg st
  /\ (is_online d = false ->
      trigger_ssh_exchange env unique_id (Some true) st
      = (HTTPException 400 ("SUT " +:+ unique_id +:+ " is offline"), st))
  /\ (is_online d = true -> unique_id ∈ connections st ->
      key_manager_error env = None ->
      forall pk,
        (MasterKey.get_public_key (key_env env) (key_files st)).1 = Some pk ->
        PyStr.nonempty pk = true ->
        exists fp,
          (trigger_ssh_exchange env unique_id (Some true) st).1
          = Response (RequestSent fp true)
          /\ sent (trigger_ssh_exchange env unique_id (Some true) st).2
             = sent st ++ [(unique_id, InstallMasterKey pk fp true)]
          /\ connections (trigger_ssh_exchange env unique_id (Some true) st).2
             = connections st)
  /\ (is_online d = true ->
      key_manager_error env <> None
      \/ (forall pk,
            (MasterKey.get_public_key (key_env env) (key_files st)).1
            = Some pk ->
            PyStr.nonempty pk = false)
      \/ unique_id ∉ connections st ->
      exists detail,
        (trigger_ssh_exchange env unique_id (Some true) st).1
        = HTTPException 500 detail
        /\ sent (trigger_ssh_exchange env unique_id (Some true) st).2
           = sent st
        /\ connections (trigger_ssh_exchange env unique_id (Some true) st).2
           = connections st).
Proof.
  intros Hd. split; [apply trigger_ssh_exchange_reg|].
  unfold trigger_ssh_exchange, get_device_by_id. rewrite Hd.
  cbn [default negb andb]. split; [|split].
  - intros Hoff. by rewrite Hoff.
  - intros Hon Hconn Hkm pk Hpk Hne. rewrite Hon, Hkm, andb_false_r.
    cbn [negb].
    destruct (MasterKey.get_public_key (key_env env) (key_files st))
      as [pk' fs] eqn:Epk.
    cbn [fst] in Hpk. subst pk'.
    destruct (MasterKey.get_fingerprint (key_env env) fs) as [fp fs'] eqn:Efp.
    rewrite Hne. unfold send_to_device. cbn [connections].
    destruct (decide (unique_id ∈ connections st)) as [_|Hout]; [|done].
    cbn [negb fst snd send_json sent connections].
    by exists fp.
  - intros Hon Hwhy. rewrite Hon, andb_false_r. cbn [negb].
    destruct (key_manager_error env) as [e|] eqn:Hkm; [by eexists|].
    destruct (MasterKey.get_public_key (key_env env) (key_files st))
      as [master_public_key fs] eqn:Epk.
    destruct (MasterKey.get_fingerprint (key_env env) fs) as [fp fs'] eqn:Efp.
    cbn [fst] in Hwhy.
    destruct master_public_key as [pk|]; [|by eexists].
    destruct (PyStr.nonempty pk) eqn:Hne; [|by eexists].
    unfold send_to_device. cbn [connections].
    destruct (decide (unique_id ∈ connections st)) as [Hlive|Hdead];
      [|by eexists].
    destruct Hwhy as [Hraises|[Hnokey|Hnosession]].
    + done.
    + specialize (Hnokey pk eq_refl). congruence.
    + done.
Qed.

Lemma forced_exchange_witness :
  sent (trigger_ssh_exchange env_ok "dev-A" (Some true) one_device).2
  = sent one_device
    ++ [("dev-A",
         InstallMasterKey "ssh-ed25519 AAAAC3 master@lab"
           (Some "SHA256:abc") true)].
Proof.
  destruct (forced_exchange env_ok "dev-A" one_device device_a
              one_device_record) as (_ & _ & Hon & _).
  destruct (Hon eq_refl) with (pk := "ssh-ed25519 AAAAC3 master@lab")
    as (fp & Hreply & Hsent & _).
  - apply (bool_decide_eq_true_1 ("dev-A" ∈ connections one_device)).
    by vm_compute.
  - reflexivity.
  - by vm_compute.
  - reflexivity.
  - rewrite Hsent. vm_compute in Hreply. by injection Hreply as <-.
Defined.

End exchange_facts.

(** ** Registration *)

Section registration_facts.
Import Registry Api Scenario.

(** C3, as stated, fails: the key manager cannot be obtained (it raises),
    the record of the registering device has [master_key_installed] false,
    and the acknowledgment carries [re_exchange] false. *)
Lemma register_ack_re_exchange_counterexample :
  (master_key_installed
     <$> devices (reg (open_session env_manager_raises "dev-A"
                         (RecvObject (payload_at "10.0.0.5" "sut-a"))
                         (initial 10)).2) !! "dev-A") = Some false
  /\ sent (open_session env_manager_raises "dev-A"
            (RecvObject (payload_at "10.0.0.5" "sut-a")) (initial 10)).2
     = [("dev-A",
         RegisterAck "SUT dev-A registered successfully" "dev-A" false
           None None false 1)].
Proof. by vm_compute. Qed.

(** What the registration path leaves behind for a JSON object. *)
Lemma open_session_object (env : environment) (sut_id : string)
    (init_data : init_payload) (st : state) :
  exists d message ssh_registered master_public_key master_fingerprint,
    (open_session env sut_id (RecvObject init_data) st).1 = true
    /\ devices (reg (open_session env sut_id (RecvObject init_data) st).2) !! sut_id
       = Some d
    /\ sent (open_session env sut_id (RecvObject init_data) st).2
       = sent st
         ++ [(sut_id,
              RegisterAck message sut_id ssh_registered
                master_public_key master_fingerprint
                (match key_manager_error env with
                 | Some _ => false
                 | None => negb (master_key_installed d)
                 end)
                (session_id d))]
    /\ match key_manager_error env with
       | Some _ => master_public_key = None /\ master_fingerprint = None
       | None =>
           master_public_key
           = (MasterKey.get_public_key (key_env env) (key_files st)).1
       end.
Proof.
  cbn [open_session].
  destruct (register_device _ _ _ _ _ _ _ _ _ _ (reg (ws_connect sut_id st)))
    as [device r] eqn:E.
  assert (devices r !! sut_id = Some device) as Hdev.
  { change r with (device, r).2. rewrite <- E, register_device_devices, E.
    apply lookup_insert_eq. }
  cbn [with_reg reg key_files connections sent ws_connect].
  unfold master_key_block.
  destruct (key_manager_error env) as [e|].
  - eexists device, _, _, None, None. cbn [fst snd send_json reg sent].
    repeat split; done.
  - destruct (MasterKey.get_public_key (key_env env) (key_files st))
      as [pk fs] eqn:Epk.
    destruct (MasterKey.get_fingerprint (key_env env) fs) as [fp fs'] eqn:Efp.
    eexists device, _, _, pk, fp. cbn [fst snd send_json reg sent].
    repeat split; done.
Qed.

(** C3, amended. Every registration of a JSON object is acknowledged with
    one [register_ack] on the session of the device; its [re_exchange]
    flag is the negation of [master_key_installed] of the device's record
    whenever the key manager is obtained without raising (also when that
    manager then has no public key to give), and is false, with no Master
    key in the message, when obtaining it raises. *)
Theorem register_ack_re_exchange (env : environment) (sut_id : string)
    (init_data : init_payload) (st : state) :
  exists d message ssh_registered master_public_key master_fingerprint,
    (open_session env sut_id (RecvObject init_data) st).1 = true
    /\ devices (reg (open_session env sut_id (RecvObject init_data) st).2) !! sut_id
       = Some d
    /\ sent (open_session env sut_id (RecvObject init_data) st).2
       = sent st
         ++ [(sut_id,
              RegisterAck message sut_id ssh_registered
                master_public_key master_fingerprint
                (match key_manager_error env with
                 | Some _ => false
                 | None => negb (master_key_installed d)
                 end)
                (session_id d))]
    /\ match key_manager_error env with
       | Some _ => master_public_key = None /\ master_fingerprint = None
       | None =>
           master_public_key
           = (MasterKey.get_public_key (key_env env) (key_files st)).1
       end.
Proof. apply open_session_object. Qed.

(** C4, as stated, fails: a registration payload that is the empty JSON
    object (no [ip], nothing else either) is not refused; the device is
    recorded, at the address ["unknown"], and acknowledged. *)
Lemma registration_without_ip_counterexample :
  (open_session env_ok "dev-A" (RecvObject payload_empty) (initial 10)).1 = true
  /\ (ip <$> devices (reg (open_session env_ok "dev-A" (RecvObject payload_empty)
                             (initial 10)).2) !! "dev-A") = Some "unknown"
  /\ ip_to_id_mapping (reg (open_session env_ok "dev-A" (RecvObject payload_empty)
                              (initial 10)).2) !! "unknown" = Some "dev-A"
  /\ (is_register_ack ∘ snd
        <$> sent (open_session env_ok "dev-A" (RecvObject payload_empty)
                    (initial 10)).2) = [true].
Proof. by vm_compute. Qed.

(** C4, amended. A registration payload that is a JSON object without
    [ip] is accepted: the session goes on, the device is recorded at the
    address ["unknown"] and a [register_ack] is sent.  When no JSON object
    arrives (nothing can be received, or the payload is not an object) the
    session ends at once, nothing is sent, no record is created and no
    index entry changes; the only effect on the registry is that a record
    this identity already had is marked offline. *)
Theorem registration_payload_handling (env : environment) (sut_id : string)
    (st : state) :
  (forall init_data, p_ip init_data = None ->
     (open_session env sut_id (RecvObject init_data) st).1 = true
     /\ (ip <$> devices (reg (open_session env sut_id (RecvObject init_data) st).2)
                !! sut_id) = Some "unknown"
     /\ exists ack,
          is_register_ack ack = true
          /\ sent (open_session env sut_id (RecvObject init_data) st).2
             = sent st ++ [(sut_id, ack)])
  /\ (forall first, first = RecvFailed \/ first = RecvNotObject ->
      (open_session env sut_id first st).1 = false
      /\ sent (open_session env sut_id first st).2 = sent st
      /\ devices (reg (open_session env sut_id first st).2)
         = alter set_offline sut_id (devices (reg st))
      /\ dom (devices (reg (open_session env sut_id first st).2))
         = dom (devices (reg st))
      /\ ip_to_id_mapping (reg (open_session env sut_id first st).2)
         = ip_to_id_mapping (reg st)
      /\ paired_store (reg (open_session env sut_id first st).2)
         = paired_store (reg st)).
Proof.
  split.
  - intros init_data Hip.
    destruct (open_session_object env sut_id init_data st)
      as (d & m & sr & pk & fp & Halive & Hd & Hsent & _).
    split; [done|]. split.
    + pose proof (register_device_ip (now env)
                    (default "unknown" (p_ip init_data))
                    (default 8080 (p_port init_data)) sut_id
                    (default [] (p_capabilities init_data))
                    (default "" (p_hostname init_data))
                    (p_cpu_model init_data) (p_display_name init_data)
                    (p_ssh_public_key init_data)
                    (p_ssh_key_fingerprint init_data)
                    (reg (ws_connect sut_id st))) as Hreg.
      rewrite Hip in Hreg. cbn [default] in Hreg.
      revert Hd. cbn [open_session]. rewrite Hip. cbn [default].
      destruct (register_device _ _ _ _ _ _ _ _ _ _ (reg (ws_connect sut_id st)))
        as [device r] eqn:E.
      assert (devices r !! sut_id = Some device) as Hdev.
      { change r with (device, r).2. rewrite <- E, register_device_devices, E.
        apply lookup_insert_eq. }
      cbn [with_reg reg key_files].
      destruct (master_key_block env device _) as [[[pk' fp'] re] fs].
      cbn [snd send_json reg]. intros _. rewrite Hdev. cbn.
      by rewrite <- Hreg.
    + eexists. split; [|exact Hsent]. done.
  - intros first [-> | ->]; cbn [open_session fst snd close_session];
      cbn [with_reg ws_disconnect ws_connect reg sent mark_device_offline
           with_devices devices ip_to_id_mapping paired_store];
      repeat split; try done; apply dom_alter_L.
Qed.

Lemma registration_payload_handling_witness :
  (ip <$> devices (reg (open_session env_ok "dev-A" (RecvObject payload_empty)
                          (initial 10)).2) !! "dev-A") = Some "unknown"
  /\ devices (reg (open_session env_ok "dev-A" RecvFailed one_device).2)
     = alter set_offline "dev-A" (devices (reg one_device))
  /\ sent (open_session env_ok "dev-A" RecvNotObject one_device).2
     = sent one_device.
Proof.
  destruct (registration_payload_handling env_ok "dev-A" (initial 10))
    as [Hobject _].
  destruct (Hobject payload_empty eq_refl) as (_ & Hip & _).
  destruct (registration_payload_handling env_ok "dev-A" one_device)
    as [_ Hnone].
  destruct (Hnone RecvFailed (or_introl eq_refl)) as (_ & _ & Hdev & _).
  destruct (Hnone RecvNotObject (or_intror eq_refl)) as (_ & Hsent & _).
  by repeat split.
Defined.

(** A whole session, end to end: registration, a heartbeat, the key
    installation acknowledgment, then the transport closes. *)
Example session_ex :
  let st := websocket_sut_endpoint env_ok "dev-A"
              (RecvObject (payload_at "10.0.0.5" "sut-a"))
              [(env_later, msg_heartbeat); (env_later, msg_installed)]
              (initial 10) in
  ((fun d => (is_online d, last_seen d, master_key_installed d,
              master_key_installed_at d))
     <$> devices (reg st) !! "dev-A")
  = Some (false, 160, true, Some 160)
  /\ (snd <$> sent st)
     = [RegisterAck "SUT dev-A registered successfully" "dev-A" false
          (Some "ssh-ed25519 AAAAC3 master@lab") (Some "SHA256:abc") true 1;
        HeartbeatAck; MasterKeyInstalledAck true None].
Proof. by vm_compute. Qed.

End registration_facts.

(** ** The message loop: key installation acknowledgment *)

Section trust_facts.
Import Registry Api Scenario.














End trust_facts.

(** ** The message loop: heartbeats *)

Section heartbeat_facts.
Import Registry Api Scenario.


(** The registration path stores what the payload says, with its
    defaults, and brings the device online. *)
Lemma open_session_registers env sut_id init_data (st : state) :
  exists d,
    devices (reg (open_session env sut_id (RecvObject init_data) st).2) !! sut_id
    = Some d
    /\ registered_with (default "unknown" (p_ip init_data))
         (default 8080 (p_port init_data))
         (default [] (p_capabilities init_data))
         (default "" (p_hostname init_data)) d.
Proof.
  cbn [open_session].
  destruct (register_device _ _ _ _ _ _ _ _ _ _ (reg (ws_connect sut_id st)))
    as [device r] eqn:E.
  cbn [with_reg reg key_files].
  destruct (master_key_block env device _) as [[[pk fp] re] fs].
  cbn [snd send_json reg]. exists device.
  unfold register_device in E. injection E as Hdev Hr. subst r.
  cbn [devices]. rewrite lookup_insert_eq. split; [by rewrite Hdev|].
  subst device. unfold registered_with.
  by destruct (devices _ !! sut_id).
Qed.



End heartbeat_facts.

(** ** The authorized_keys store *)

Section key_store_facts.
Import PyStr SshSetup.


Lemma startswith_cons (c : ascii) (s p : string) :
  startswith (String c s) (String c p) = startswith s p.
Proof. cbn [startswith]. by rewrite Ascii.eqb_refl. Qed.



Lemma contains_tail (k : string) (c : ascii) (s : string) :
  contains k s = true -> contains k (String c s) = true.
Proof. intros H. rewrite contains_cons, H. apply orb_true_r. Qed.

Lemma startswith_contains (s p : string) :
  startswith s p = true -> contains p s = true.
Proof.
  intros H. destruct s; [by rewrite contains_nil|].
  by rewrite contains_cons, H.
Qed.

Lemma split_unfold (c : ascii) (s : string) :
  split (String c s)
  = if is_space c then split s
    else match s with
         | EmptyString => [String c EmptyString]
         | String c' _ =>
             if is_space c' then String c EmptyString :: split s
             else match split s with
                  | t :: ts => String c t :: ts
                  | [] => [String c EmptyString]
                  end
         end.
Proof. reflexivity. Qed.

(** The first field of a text that starts with a non-blank is a prefix of
    it, and every field is a non-empty part of the text. *)
Lemma split_fields (s : string) :
  (forall t, t ∈ split s -> contains t s = true /\ t <> "")
  /\ (forall c r, s = String c r -> is_space c = false ->
      exists t ts, split s = t :: ts /\ startswith s t = true).
Proof.
  induction s as [|c s [IHall IHhead]].
  - split; [|done]. intros t Ht. by apply elem_of_nil in Ht.
  - rewrite split_unfold. destruct (is_space c) eqn:Hc.
    + split; [|intros c' r [= -> ->] Hc'; congruence].
      intros t Ht. destruct (IHall t Ht) as [Hin Hne].
      split; [by apply contains_tail|done].
    + destruct s as [|c' s'].
      * split.
        -- intros t ->%list_elem_of_singleton. split; [apply contains_refl|done].
        -- intros c0 r [= <- <-] _. eexists _, _. split; [done|].
           by rewrite startswith_cons.
      * destruct (is_space c') eqn:Hc'.
        -- split.
           ++ intros t [->|Ht]%elem_of_cons.
              ** split; [|done]. apply startswith_contains.
                 by rewrite startswith_cons.
              ** destruct (IHall t Ht) as [Hin Hne].
                 split; [by apply contains_tail|done].
           ++ intros c0 r [= <- <-] _. eexists _, _. split; [done|].
              by rewrite startswith_cons.
        -- destruct (IHhead c' s' eq_refl Hc') as (t0 & ts & Hsplit & Hpre).
           rewrite Hsplit in IHall |- *. split.
           ++ intros t [->|Ht]%elem_of_cons.
              ** split; [|done]. apply startswith_contains.
                 by rewrite startswith_cons.
              ** destruct (IHall t) as [Hin Hne]; [by right|].
                 split; [by apply contains_tail|done].
           ++ intros c0 r [= <- <-] _. eexists _, _. split; [done|].
              by rewrite startswith_cons.
Qed.




Lemma nonempty_true (s : string) : s <> "" -> nonempty s = true.
Proof. by destruct s. Qed.






















End key_store_facts.

(** ** More on Python's strings *)

Section strip_facts.
Import PyStr.

Lemma lstrip_trimmed (s : string) : trimmed_left (lstrip s).
Proof.
  induction s as [|c s IH]; [done|]. cbn [lstrip].
  destruct (is_space c) eqn:Hc; [done|]. exact Hc.
Qed.

Lemma lstrip_id (s : string) : trimmed_left s -> lstrip s = s.
Proof. destruct s as [|c s]; [done|]. cbn. by intros ->. Qed.

Lemma rstrip_unfold (c : ascii) (s : string) :
  rstrip (String c s)
  = match rstrip s with
    | EmptyString => if is_space c then EmptyString else String c EmptyString
    | r => String c r
    end.
Proof. reflexivity. Qed.

Lemma rstrip_trimmed (s : string) : trimmed_left s -> trimmed_left (rstrip s).
Proof.
  destruct s as [|c s]; [done|]. cbn [trimmed_left]. intros Hc.
  rewrite rstrip_unfold. destruct (rstrip s); [by rewrite Hc|done].
Qed.

Lemma rstrip_idem (s : string) : rstrip (rstrip s) = rstrip s.
Proof.
  induction s as [|c s IH]; [done|].
  rewrite rstrip_unfold. destruct (rstrip s) as [|c' r] eqn:Hr.
  - destruct (is_space c) eqn:Hc; [done|].
    rewrite rstrip_unfold. cbn [rstrip]. by rewrite Hc.
  - rewrite rstrip_unfold, IH. done.
Qed.

Lemma strip_idem (s : string) : strip (strip s) = strip s.
Proof.
  unfold strip.
  rewrite (lstrip_id (rstrip (lstrip s)))
    by apply rstrip_trimmed, lstrip_trimmed.
  apply rstrip_idem.
Qed.

End strip_facts.

(** ** The Master's key pair: reading, listing, connecting *)

Section key_manager_facts.
Import MasterKey.

Lemma ensure_keeps_present (env : environment) (fs : key_files) :
  both_exist fs = true -> (ensure_key_exists env fs).2 = fs.
Proof. intros H. by rewrite ensure_present. Qed.

Lemma both_exist_public (fs : key_files) :
  both_exist fs = true -> exists content, public_key fs = Some content.
Proof.
  unfold both_exist. destruct (private_key fs); [|done].
  destruct (public_key fs) as [content|]; [|done]. by exists content.
Qed.


Lemma get_public_key_present (env : environment) (fs : key_files)
    (content : string) :
  both_exist fs = true -> public_key fs = Some content ->
  get_public_key env fs = (Some (PyStr.strip content), fs).
Proof.
  intros Hb Hc. unfold get_public_key. rewrite (ensure_present _ _ Hb).
  cbn [negb]. by rewrite Hc.
Qed.



(** X2. [get_key_info] only reads: it never creates or changes a key
    file.  With a file of the pair missing it reports that the key does
    not exist and gives neither fingerprint nor public key, even where
    key generation would have worked; with the pair present it reports
    the stored public key. *)
Theorem get_key_info_reads_only (env : environment) (fs : key_files) :
  (get_key_info env fs).2 = fs
  /\ (both_exist fs = false ->
      (get_key_info env fs).1
      = {| info_exists := false; info_fingerprint := None;
           info_public_key := None |})
  /\ (forall content,
        both_exist fs = true -> public_key fs = Some content ->
        info_exists (get_key_info env fs).1 = true
        /\ info_public_key (get_key_info env fs).1
           = Some (PyStr.strip content)).
Proof.
  unfold get_key_info. destruct (both_exist fs) eqn:Hb.
  - assert (get_fingerprint env fs = ((get_fingerprint env fs).1, fs)) as Hfp.
    { unfold get_fingerprint. rewrite (ensure_present _ _ Hb). cbn [negb].
      destruct (private_key fs); [|done].
      destruct (listing env) as [rc out|e]; [|done].
      destruct (rc =? 0); [|done].
      by destruct (PyStr.split (PyStr.strip out)) as [|a [|b l]]. }
    destruct (both_exist_public _ Hb) as [content Hc].
    rewrite Hfp, (get_public_key_present _ _ _ Hb Hc). cbn [fst snd].
    split; [done|]. split; [done|].
    intros content' _ Hc'. rewrite Hc in Hc'. by injection Hc' as ->.
  - cbn [fst snd]. split; [done|]. split; [done|]. done.
Qed.

Lemma get_key_info_reads_only_witness :
  (get_key_info Scenario.benign Scenario.no_files).1
  = {| info_exists := false; info_fingerprint := None;
       info_public_key := None |}
  /\ (get_key_info Scenario.benign Scenario.no_files).2 = Scenario.no_files.
Proof.
  destruct (get_key_info_reads_only Scenario.benign Scenario.no_files)
    as (Hfs & Habsent & _).
  split; [by apply Habsent|exact Hfs].
Defined.

(** X3. [test_connection] reports success exactly when the key pair
    could be ensured and the [ssh] run for [echo SSH_OK] at the target
    exits with 0 and prints [SSH_OK].  When the key pair cannot be
    ensured the answer names that reason whatever the remote shell would
    do, so no connection is attempted.  The only effect on the key files
    is that of ensuring the key. *)
Theorem test_connection_success (env : environment) (sh : shell)
    (sut_ip : string) (user : option string) (timeout : Z)
    (fs : key_files) :
  ((test_connection env sh sut_ip user timeout fs).1.1 = true
   <-> (ensure_key_exists env fs).1.1 = true
       /\ exists out err,
            run_ssh sh (target sh sut_ip user) timeout "echo SSH_OK"
            = SshExit 0 out err
            /\ PyStr.contains "SSH_OK" out = true)
  /\ ((ensure_key_exists env fs).1.1 = false ->
      (test_connection env sh sut_ip user timeout fs).1
      = (false,
         "Master key not available: " +:+ (ensure_key_exists env fs).1.2))
  /\ (test_connection env sh sut_ip user timeout fs).2
     = (ensure_key_exists env fs).2.
Proof.
  unfold test_connection.
  destruct (ensure_key_exists env fs) as [[success msg] fs'].
  cbn [fst snd]. destruct success; cbn [negb fst snd].
  - split; [|split; [done|]].
    + destruct (run_ssh sh (target sh sut_ip user) timeout "echo SSH_OK")
        as [rc out err| |e]; cbn [fst snd].
      * destruct (Z.eqb_spec rc 0) as [->|Hrc]; cbn [andb].
        -- destruct (PyStr.contains "SSH_OK" out) eqn:Hout; cbn [fst].
           ++ split; [|done]. intros _. split; [done|]. by exists out, err.
           ++ split; [done|]. intros [_ (out' & err' & [= <- <-] & Hc)].
              congruence.
        -- split; [done|]. intros [_ (out' & err' & [= -> _ _] & _)]. done.
      * split; [done|]. by intros [_ (out' & err' & H & _)].
      * split; [done|]. by intros [_ (out' & err' & H & _)].
    + by destruct (run_ssh sh _ _ _) as [rc out err| |e];
        [destruct ((rc =? 0) && PyStr.contains "SSH_OK" out)|..].
  - split; [|split; done]. split; [done|]. by intros [H _].
Qed.

(** X4. [test_connection] is [execute_on_sut] of [echo SSH_OK] with a
    check of what comes back: it succeeds exactly when that command,
    run for the same device, user and timeout, succeeds and its output
    contains [SSH_OK]; and both leave the same key files. *)
Theorem test_connection_is_echo (env : environment) (sh : shell)
    (sut_ip : string) (user : option string) (timeout : Z)
    (fs : key_files) :
  (test_connection env sh sut_ip user timeout fs).1.1
  = (execute_on_sut env sh sut_ip "echo SSH_OK" user timeout fs).1.1.1
    && PyStr.contains "SSH_OK"
         (execute_on_sut env sh sut_ip "echo SSH_OK" user timeout fs).1.1.2
  /\ (test_connection env sh sut_ip user timeout fs).2
     = (execute_on_sut env sh sut_ip "echo SSH_OK" user timeout fs).2.
Proof.
  unfold test_connection, execute_on_sut.
  destruct (ensure_key_exists env fs) as [[success msg] fs'].
  destruct success; cbn [negb fst snd]; [|done].
  destruct (run_ssh sh (target sh sut_ip user) timeout "echo SSH_OK")
    as [rc out err| |e]; cbn [fst snd]; try done.
  by destruct ((rc =? 0) && PyStr.contains "SSH_OK" out).
Qed.

(** X5. A fingerprint is only ever given for a key that can also be
    read: whenever [get_fingerprint] returns one, [get_public_key], in
    the same environment and on the same files, returns the public key,
    and both leave the same files behind, with the pair present. *)
Theorem fingerprint_has_public_key (env : environment) (fs : key_files)
    (fp : string) :
  (get_fingerprint env fs).1 = Some fp ->
  (exists pk, (get_public_key env fs).1 = Some pk)
  /\ (get_public_key env fs).2 = (get_fingerprint env fs).2
  /\ both_exist (get_fingerprint env fs).2 = true.
Proof.
  unfold get_fingerprint, get_public_key.
  pose proof (ensure_success_both_exist env fs) as Hboth.
  destruct (ensure_key_exists env fs) as [[success msg] fs'].
  cbn [fst snd] in *. destruct success; cbn [negb]; [|done].
  specialize (Hboth eq_refl).
  destruct (both_exist_public _ Hboth) as [content Hc]. rewrite Hc.
  intros Hfp.
  assert ((match private_key fs' with
           | Some _ =>
               match listing env with
               | ListingExit rc out =>
                   if rc =? 0
                   then match PyStr.split (PyStr.strip out) with
                        | _ :: fp :: _ => (Some fp, fs')
                        | _ => (None, fs')
                        end
                   else (None, fs')
               | ListingError _ => (None, fs')
               end
           | None => (None, fs')
           end).2 = fs') as Hsame.
  { destruct (private_key fs'); [|done].
    destruct (listing env) as [rc out|e]; [|done].
    destruct (rc =? 0); [|done].
    by destruct (PyStr.split (PyStr.strip out)) as [|a [|b l]]. }
  rewrite Hsame. cbn [fst snd]. split; [by exists (PyStr.strip content)|].
  done.
Qed.

Lemma fingerprint_has_public_key_witness :
  (get_public_key Scenario.benign Scenario.no_files).2
  = (get_fingerprint Scenario.benign Scenario.no_files).2.
Proof.
  destruct (fingerprint_has_public_key Scenario.benign Scenario.no_files
              "SHA256:abc" eq_refl) as (_ & Hsame & _).
  exact Hsame.
Defined.

End key_manager_facts.

(** ** Removing keys from the authorized_keys store *)

Section key_removal_facts.
Import PyStr SshSetup.

Lemma get_fingerprint_nonempty listing (line fp : string) :
  _get_fingerprint listing line = Some fp -> nonempty fp = true.
Proof.
  unfold _get_fingerprint. destruct (negb (nonempty line)); [done|].
  destruct (listing line) as [rc out|e]; [|done].
  destruct (rc =? 0); [|done].
  destruct (split (strip out)) as [|a [|b l]] eqn:E; try done.
  intros [= <-]. apply nonempty_true.
  apply (split_fields (strip out)). rewrite E. right. left.
Qed.

Lemma is_key_line_strip (line : string) :
  is_key_line (strip line) = is_key_line line.
Proof. unfold is_key_line. by rewrite strip_idem. Qed.

Lemma has_fingerprint_strip listing (kf line : string) :
  has_fingerprint listing kf (strip line) = has_fingerprint listing kf line.
Proof. unfold has_fingerprint. by rewrite is_key_line_strip, strip_idem. Qed.

Lemma has_fingerprint_key_line listing (kf line : string) :
  has_fingerprint listing kf line = true -> is_key_line line = true.
Proof. unfold has_fingerprint. by intros [H _]%andb_prop. Qed.

(** The loop keeps, stripped and in order, exactly the lines that are
    not keys with the given fingerprint. *)
Lemma remove_lines_spec listing (kf : string) (lines : list string) :
  remove_lines listing kf lines
  = (strip <$> filter (fun l => has_fingerprint listing kf l = false) lines,
     existsb (has_fingerprint listing kf) lines).
Proof.
  induction lines as [|line rest IH]; [done|].
  cbn [remove_lines existsb]. rewrite IH. clear IH.
  assert (forall b, has_fingerprint listing kf line = b ->
            (if b
             then (strip <$> filter
                     (fun l => has_fingerprint listing kf l = false) rest,
                   true)
             else (strip line
                   :: (strip <$> filter
                         (fun l => has_fingerprint listing kf l = false) rest),
                   existsb (has_fingerprint listing kf) rest))
            = (strip <$> filter
                 (fun l => has_fingerprint listing kf l = false) (line :: rest),
               has_fingerprint listing kf line
               || existsb (has_fingerprint listing kf) rest)) as Hcase.
  { intros [] Hb; rewrite Hb; cbn [orb].
    - rewrite filter_cons_False; [done|]. by rewrite Hb.
    - by rewrite filter_cons_True. }
  destruct (nonempty (strip line)) eqn:Hne; cbn [negb orb].
  2:{ apply (Hcase false). unfold has_fingerprint, is_key_line.
      by rewrite Hne. }
  destruct (startswith (strip line) "#") eqn:Hc.
  { apply (Hcase false). unfold has_fingerprint, is_key_line.
    by rewrite Hne, Hc. }
  destruct (_get_fingerprint listing (strip line)) as [fp|] eqn:Hfp.
  - rewrite (get_fingerprint_nonempty _ _ _ Hfp). cbn [andb].
    destruct (String.eqb_spec fp kf) as [->|Hneq].
    + apply (Hcase true). unfold has_fingerprint, is_key_line.
      rewrite Hne, Hc, Hfp. by rewrite bool_decide_eq_true_2.
    + apply (Hcase false). unfold has_fingerprint, is_key_line.
      rewrite Hne, Hc, Hfp. by rewrite bool_decide_eq_false_2 by congruence.
  - apply (Hcase false). unfold has_fingerprint, is_key_line.
    rewrite Hne, Hc, Hfp. by rewrite bool_decide_eq_false_2.
Qed.

(** X6. [remove_authorized_key] fails when there is no file; when no key
    line of the file has the fingerprint it answers that the key was not
    found and leaves the file as it is; otherwise it rewrites the file
    with, in their order and stripped of surrounding blanks, exactly the
    lines that are not keys with that fingerprint: every matching key
    goes, comments, blank lines and the other keys stay. *)
Theorem remove_authorized_key_spec listing (key_fingerprint : string)
    (file : option string) :
  (file = None ->
     remove_authorized_key listing key_fingerprint file
     = ((false, "No authorized_keys file"), None))
  /\ (forall content, file = Some content ->
      existsb (has_fingerprint listing key_fingerprint) (splitlines content)
      = false ->
      remove_authorized_key listing key_fingerprint file
      = ((false, "Key not found"), file))
  /\ (forall content, file = Some content ->
      existsb (has_fingerprint listing key_fingerprint) (splitlines content)
      = true ->
      remove_authorized_key listing key_fingerprint file
      = ((true, "Key removed"),
         Some (join LF
                 (strip <$> filter
                    (fun l => has_fingerprint listing key_fingerprint l = false)
                    (splitlines content))
               +:+ LF))).
Proof.
  split; [by intros ->|].
  split; intros content -> Hex; unfold remove_authorized_key;
    by rewrite remove_lines_spec, Hex.
Qed.

Lemma splitlines_unfold (c : ascii) (s : string) :
  splitlines (String c s)
  = if is_linebreak c then
      match s with
      | String c' s'' =>
          if Ascii.eqb c "013"%char && Ascii.eqb c' "010"%char
          then EmptyString :: splitlines s''
          else EmptyString :: splitlines s
      | EmptyString => EmptyString :: splitlines s
      end
    else
      match splitlines s with
      | l :: ls => String c l :: ls
      | [] => [String c EmptyString]
      end.
Proof. reflexivity. Qed.

Lemma one_line_cons (c : ascii) (s : string) :
  one_line (String c s) = negb (is_linebreak c) && one_line s.
Proof. reflexivity. Qed.

(** A line followed by a line feed is cut off as it is. *)
Lemma splitlines_line (x t : string) :
  one_line x = true -> splitlines (x +:+ LF +:+ t) = x :: splitlines t.
Proof.
  induction x as [|c x IH]; intros Hx.
  - rewrite append_nil_l. unfold LF. rewrite append_cons, append_nil_l.
    rewrite splitlines_unfold. cbn [is_linebreak].
    by destruct t.
  - rewrite one_line_cons in Hx. apply andb_prop in Hx as [Hc Hx].
    rewrite append_cons, splitlines_unfold, (IH Hx).
    by destruct (is_linebreak c).
Qed.

(** Cutting what [join] glued gives the lines back. *)
Lemma splitlines_join (ls : list string) :
  Forall (fun l => one_line l = true) ls -> ls <> [] ->
  splitlines (join LF ls +:+ LF) = ls.
Proof.
  induction ls as [|x ls IH]; [done|]. intros Hall _.
  apply Forall_cons in Hall as [Hx Hall].
  destruct ls as [|y ls].
  - cbn [join]. rewrite <- (append_nil_r (x +:+ LF)), append_assoc.
    by rewrite splitlines_line.
  - change (join LF (x :: y :: ls)) with (x +:+ LF +:+ join LF (y :: ls)).
    rewrite !append_assoc, splitlines_line by done.
    by rewrite IH.
Qed.

Lemma all_chars_lstrip (p : ascii -> bool) (s : string) :
  all_chars p s = true -> all_chars p (lstrip s) = true.
Proof.
  induction s as [|c s IH]; [done|]. cbn [lstrip all_chars].
  intros [Hc Hs]%andb_prop. destruct (is_space c); [by apply IH|].
  cbn [all_chars]. by rewrite Hc, Hs.
Qed.

Lemma all_chars_rstrip (p : ascii -> bool) (s : string) :
  all_chars p s = true -> all_chars p (rstrip s) = true.
Proof.
  induction s as [|c s IH]; [done|]. cbn [all_chars].
  intros [Hc Hs]%andb_prop. rewrite rstrip_unfold.
  specialize (IH Hs). destruct (rstrip s) as [|c' r].
  - destruct (is_space c); [done|]. cbn [all_chars]. by rewrite Hc.
  - cbn [all_chars] in IH |- *. by rewrite Hc, IH.
Qed.

Lemma one_line_strip (s : string) : one_line s = true -> one_line (strip s) = true.
Proof. intros H. by apply all_chars_rstrip, all_chars_lstrip. Qed.

(** What [splitlines] gives has no cut left in it. *)
Lemma splitlines_one_line (s : string) :
  Forall (fun l => one_line l = true) (splitlines s).
Proof.
  enough (Forall (fun l => one_line l = true) (splitlines s)
          /\ match s with
             | String _ s' => Forall (fun l => one_line l = true) (splitlines s')
             | EmptyString => True
             end) as [H _] by exact H.
  induction s as [|c s [IH IHtail]]; [done|].
  split; [|exact IH]. rewrite splitlines_unfold.
  destruct (is_linebreak c) eqn:Hc.
  - destruct s as [|c' s''];
      [by apply Forall_cons|].
    destruct (Ascii.eqb c "013"%char && Ascii.eqb c' "010"%char);
      by apply Forall_cons.
  - destruct (splitlines s) as [|l ls].
    + apply Forall_cons. split; [|done]. rewrite one_line_cons, Hc. done.
    + apply Forall_cons in IH as [Hl Hls]. apply Forall_cons.
      split; [|done]. by rewrite one_line_cons, Hc, Hl.
Qed.

Lemma kept_lines_one_line listing (kf content : string) :
  Forall (fun l => one_line l = true)
    (strip <$> filter (fun l => has_fingerprint listing kf l = false)
       (splitlines content)).
Proof.
  apply Forall_fmap, Forall_forall. intros l Hl.
  apply list_elem_of_filter in Hl as [_ Hl]. apply one_line_strip.
  pose proof (splitlines_one_line content) as Hall.
  by apply (proj1 (Forall_forall _ _) Hall).
Qed.

Lemma kept_lines_clean listing (kf : string) (lines : list string) :
  existsb (has_fingerprint listing kf)
    (strip <$> filter (fun l => has_fingerprint listing kf l = false) lines)
  = false.
Proof.
  induction lines as [|l ls IH]; [done|].
  destruct (has_fingerprint listing kf l) eqn:Hl.
  - by rewrite filter_cons_False by (by rewrite Hl).
  - rewrite filter_cons_True by done. cbn [fmap list_fmap existsb].
    rewrite has_fingerprint_strip, Hl. exact IH.
Qed.

(** The lines read back from a store that a removal has written. *)
Lemma reread_kept_lines listing (kf content : string) :
  existsb (has_fingerprint listing kf)
    (splitlines
       (join LF
          (strip <$> filter (fun l => has_fingerprint listing kf l = false)
             (splitlines content)) +:+ LF))
  = false.
Proof.
  destruct (strip <$> filter (fun l => has_fingerprint listing kf l = false)
              (splitlines content)) as [|x kept] eqn:E.
  - by vm_compute.
  - rewrite splitlines_join; [|by rewrite <- E; apply kept_lines_one_line|done].
    rewrite <- E. apply kept_lines_clean.
Qed.

(** X7. After a removal that succeeded, removing the same fingerprint
    once more finds nothing: it answers that the key was not found and
    leaves the file exactly as the first removal wrote it. *)
Theorem remove_authorized_key_twice listing (key_fingerprint : string)
    (file : option string) :
  (remove_authorized_key listing key_fingerprint file).1.1 = true ->
  remove_authorized_key listing key_fingerprint
    (remove_authorized_key listing key_fingerprint file).2
  = ((false, "Key not found"),
     (remove_authorized_key listing key_fingerprint file).2).
Proof.
  destruct file as [content|]; [|done].
  unfold remove_authorized_key at 1 3 4. rewrite remove_lines_spec.
  destruct (existsb _ (splitlines content)); [|done]. intros _.
  cbn [snd]. unfold remove_authorized_key.
  by rewrite remove_lines_spec, reread_kept_lines.
Qed.

Lemma remove_authorized_key_twice_witness :
  remove_authorized_key Scenario.two_key_listing "SHA256:abc"
    (Some Scenario.two_key_store)
  = ((true, "Key removed"),
     Some ("# lab keys" +:+ LF +:+ LF +:+ "ssh-rsa BBBB other@host" +:+ LF))
  /\ remove_authorized_key Scenario.two_key_listing "SHA256:abc"
       (remove_authorized_key Scenario.two_key_listing "SHA256:abc"
          (Some Scenario.two_key_store)).2
     = ((false, "Key not found"),
        (remove_authorized_key Scenario.two_key_listing "SHA256:abc"
           (Some Scenario.two_key_store)).2).
Proof.
  split; [by vm_compute|].
  apply (remove_authorized_key_twice Scenario.two_key_listing "SHA256:abc"
           (Some Scenario.two_key_store)).
  by vm_compute.
Defined.

Lemma count_after_removal listing (kf : string) (lines : list string) :
  (length (filter (fun l => is_key_line l = true)
             (strip <$> filter (fun l => has_fingerprint listing kf l = false)
                lines))
   + length (filter (fun l => has_fingerprint listing kf l = true) lines)
   = length (filter (fun l => is_key_line l = true) lines))%nat.
Proof.
  induction lines as [|l ls IH]; [done|].
  destruct (has_fingerprint listing kf l) eqn:Hl.
  - pose proof (has_fingerprint_key_line _ _ _ Hl) as Hk.
    rewrite filter_cons_False by (by rewrite Hl).
    rewrite (filter_cons_True (fun l => has_fingerprint listing kf l = true))
      by done.
    rewrite (filter_cons_True (fun l => is_key_line l = true)) by done.
    cbn [length]. lia.
  - rewrite (filter_cons_True
               (fun l => has_fingerprint listing kf l = false)) by done.
    rewrite (filter_cons_False
               (fun l => has_fingerprint listing kf l = true))
      by (by rewrite Hl).
    cbn [fmap list_fmap].
    destruct (is_key_line l) eqn:Hk.
    + rewrite !(filter_cons_True (fun l => is_key_line l = true))
        by (by rewrite ?is_key_line_strip).
      cbn [length]. lia.
    + rewrite !(filter_cons_False (fun l => is_key_line l = true))
        by (by rewrite ?is_key_line_strip, Hk).
      exact IH.
Qed.

(** X8. The number of keys that [get_status] counts goes down, with a
    successful removal, by exactly the number of key lines that had the
    fingerprint (at least one); a removal that fails leaves the count,
    like the file, as it was. *)
Theorem removal_lowers_key_count listing (key_fingerprint content : string) :
  let matching :=
    filter (fun l => has_fingerprint listing key_fingerprint l = true)
      (splitlines content) in
  (authorized_keys_count
     (remove_authorized_key listing key_fingerprint (Some content)).2
   + (if (remove_authorized_key listing key_fingerprint (Some content)).1.1
      then length matching else 0)
   = authorized_keys_count (Some content))%nat
  /\ ((remove_authorized_key listing key_fingerprint (Some content)).1.1 = true
      <-> (1 <= length matching)%nat).
Proof.
  cbn zeta. unfold remove_authorized_key. rewrite remove_lines_spec.
  assert (existsb (has_fingerprint listing key_fingerprint) (splitlines content)
          = true
          <-> (1 <= length (filter
                              (fun l => has_fingerprint listing key_fingerprint l
                                        = true) (splitlines content)))%nat)
    as Hex.
  { induction (splitlines content) as [|l ls IH]; cbn [existsb].
    - split; [done|]. cbn. lia.
    - destruct (has_fingerprint listing key_fingerprint l) eqn:Hl; cbn [orb].
      + rewrite filter_cons_True by done. cbn [length]. split; [lia|done].
      + by rewrite filter_cons_False by (by rewrite Hl). }
  destruct (existsb _ (splitlines content)) eqn:E; cbn [fst snd].
  - split; [|by rewrite <- Hex].
    unfold authorized_keys_count.
    destruct (strip <$> filter
                (fun l => has_fingerprint listing key_fingerprint l = false)
                (splitlines content)) as [|x kept] eqn:Ek.
    + pose proof (count_after_removal listing key_fingerprint
                    (splitlines content)) as Hc.
      rewrite Ek in Hc. cbn [join]. rewrite append_nil_l.
      change (splitlines LF) with [""]. exact Hc.
    + rewrite splitlines_join;
        [|by rewrite <- Ek; apply kept_lines_one_line|done].
      rewrite <- Ek. apply count_after_removal.
  - split; [lia|]. rewrite <- Hex. done.
Qed.









End key_removal_facts.

(** ** The OpenSSH setup of a SUT *)

Section setup_facts.
Import PyStr SshSetup.

Lemma install_on_windows (w : machine) (log : list (string * Z)) :
  platform w = "win32" ->
  install_openssh_server w log
  = (call installed <- check_openssh_installed w then
     if installed then ret (true, "OpenSSH Server already installed")
     else
       call r <- _run_powershell w ADD_OPENSSH 300 then
       if r.1.1 then ret (true, "OpenSSH Server installed")
       else ret (false, "Installation failed: " +:+ r.2)) log.
Proof. intros H. unfold install_openssh_server. by rewrite H. Qed.

(** X10. The three steps that change the machine look before they act:
    [install_openssh_server], [start_sshd_service] and
    [enable_sshd_autostart] each run their query first, answer success
    without running anything else when the query already shows the
    wanted state, and run their one changing command only when it does
    not.  Off Windows, [install_openssh_server] refuses without running
    any command. *)
Theorem setup_steps_look_first (w : machine) (log : list (string * Z)) :
  (platform w <> "win32" ->
     install_openssh_server w log = ((false, "Only supported on Windows"), log))
  /\ (platform w = "win32" ->
      (install_openssh_server w log).2
      = log ++ [(CHECK_OPENSSH, 120)]
        ++ (if (check_openssh_installed w log).1 then []
            else [(ADD_OPENSSH, 300)])
      /\ ((check_openssh_installed w log).1 = true ->
          (install_openssh_server w log).1
          = (true, "OpenSSH Server already installed")))
  /\ ((start_sshd_service w log).2
      = log ++ [(SSHD_STATUS, 120)]
        ++ (if (is_sshd_running w log).1 then [] else [(START_SSHD, 120)])
      /\ ((is_sshd_running w log).1 = true ->
          (start_sshd_service w log).1 = (true, "sshd service already running")))
  /\ ((enable_sshd_autostart w log).2
      = log ++ [(SSHD_START_TYPE, 120)]
        ++ (if (is_sshd_enabled w log).1 then [] else [(ENABLE_SSHD, 120)])
      /\ ((is_sshd_enabled w log).1 = true ->
          (enable_sshd_autostart w log).1
          = (true, "sshd already set to automatic"))).
Proof.
  split.
  { intros Hp. unfold install_openssh_server.
    destruct (String.eqb_spec (platform w) "win32"); done. }
  split.
  { intros Hp. rewrite (install_on_windows _ _ Hp).
    unfold check_openssh_installed, bind, ret, _run_powershell. cbn [fst snd].
    destruct (powershell w log CHECK_OPENSSH 120) as [rc out err| | |e];
      cbn [fst snd andb];
      try (split; [by rewrite <- app_assoc; destruct (powershell w _ _ _) as [? ? ?| | |?]; cbn; try destruct (_ =? 0)|done]).
    destruct ((rc =? 0) && contains "Installed" (strip out)) eqn:Hq;
      cbn [fst snd].
    - rewrite app_nil_r. done.
    - split; [|done]. rewrite <- app_assoc.
      destruct (powershell w _ ADD_OPENSSH 300) as [rc' o' e'| | |e'];
        cbn [fst snd]; try done.
      by destruct (rc' =? 0). }
  split.
  { unfold start_sshd_service, is_sshd_running, bind, ret, _run_powershell.
    cbn [fst snd].
    destruct (powershell w log SSHD_STATUS 120) as [rc out err| | |e];
      cbn [fst snd andb];
      try (split; [by rewrite <- app_assoc; destruct (powershell w _ _ _) as [? ? ?| | |?]; cbn; try destruct (_ =? 0)|done]).
    destruct ((rc =? 0) && contains "Running" (strip out)) eqn:Hq;
      cbn [fst snd].
    - rewrite app_nil_r. done.
    - split; [|done]. rewrite <- app_assoc.
      destruct (powershell w _ START_SSHD 120) as [rc' o' e'| | |e'];
        cbn [fst snd]; try done.
      by destruct (rc' =? 0). }
  unfold enable_sshd_autostart, is_sshd_enabled, bind, ret, _run_powershell.
  cbn [fst snd].
  destruct (powershell w log SSHD_START_TYPE 120) as [rc out err| | |e];
    cbn [fst snd andb];
    try (split; [by rewrite <- app_assoc; destruct (powershell w _ _ _) as [? ? ?| | |?]; cbn; try destruct (_ =? 0)|done]).
  destruct ((rc =? 0) && contains "Automatic" (strip out)) eqn:Hq;
    cbn [fst snd].
  - rewrite app_nil_r. done.
  - split; [|done]. rewrite <- app_assoc.
    destruct (powershell w _ ENABLE_SSHD 120) as [rc' o' e'| | |e'];
      cbn [fst snd]; try done.
    by destruct (rc' =? 0).
Qed.

(** X11. [run_full_setup] refuses off Windows without running a
    command.  On Windows its verdict rests on the first two steps alone:
    it fails, with the step's message as the error and nothing further
    run, when the installation fails (one step recorded) or when sshd
    cannot be started (two steps recorded); once both succeed it reports
    success with all five steps recorded in order and the final status
    attached, whether or not autostart, the firewall rule or the network
    profile could be set. *)
Theorem run_full_setup_verdict (w : machine) (file : option string)
    (log : list (string * Z)) :
  (platform w <> "win32" ->
     run_full_setup w file log
     = ({| setup_success := false;
           setup_error := Some "SSH setup only supported on Windows";
           steps := []; setup_status := None |}, log))
  /\ (platform w = "win32" ->
      let i := install_openssh_server w log in
      let s := start_sshd_service w i.2 in
      let r := run_full_setup w file log in
      setup_success r.1 = i.1.1 && s.1.1
      /\ (i.1.1 = false ->
          r = ({| setup_success := false; setup_error := Some i.1.2;
                  steps := [Step "install_openssh" false i.1.2];
                  setup_status := None |}, i.2))
      /\ (i.1.1 = true -> s.1.1 = false ->
          r = ({| setup_success := false; setup_error := Some s.1.2;
                  steps := [Step "install_openssh" true i.1.2;
                            Step "start_sshd" false s.1.2];
                  setup_status := None |}, s.2))
      /\ (i.1.1 = true -> s.1.1 = true ->
          setup_error r.1 = None
          /\ (step <$> steps r.1)
             = ["install_openssh"; "start_sshd"; "enable_autostart";
                "configure_firewall"; "set_network_private"]
          /\ (step_success <$> take 2 (steps r.1)) = [true; true]
          /\ is_Some (setup_status r.1))).
Proof.
  split.
  { intros Hp. unfold run_full_setup.
    destruct (String.eqb_spec (platform w) "win32"); done. }
  intros Hp. cbn zeta. unfold run_full_setup. rewrite Hp.
  change (negb (String.eqb "win32" "win32")) with false. cbv iota.
  unfold bind.
  destruct (install_openssh_server w log) as [[ok1 m1] log1]. cbn [fst snd].
  destruct ok1; cbn [negb andb].
  2:{ unfold ret. repeat split; try done. }
  destruct (start_sshd_service w log1) as [[ok2 m2] log2]. cbn [fst snd].
  destruct ok2; cbn [negb].
  2:{ unfold ret. repeat split; try done. }
  destruct (enable_sshd_autostart w log2) as [[ok3 m3] log3].
  destruct (configure_firewall_rule w log3) as [[ok4 m4] log4].
  destruct (set_network_profile_private w log4) as [ok5 log5].
  destruct (get_status w file log5) as [st log6].
  unfold ret. cbn [fst snd setup_success setup_error steps setup_status].
  repeat split; done.
Qed.

Lemma run_full_setup_verdict_witness :
  setup_success (run_full_setup Scenario.locked_down None []).1 = true
  /\ (step_success <$> steps (run_full_setup Scenario.locked_down None []).1)
     = [true; true; false; false; false].
Proof.
  destruct (run_full_setup_verdict Scenario.locked_down None [])
    as [_ Hwin].
  destruct (Hwin eq_refl) as (Hverdict & _).
  split; [rewrite Hverdict|]; by vm_compute.
Defined.

End setup_facts.

(** ** The event stream of an observer *)

Section stream_facts.
Import Sse.

Lemma broadcast_lookup (event_data : string) (s : clients) (i : positive) :
  broadcast_sse_event event_data s !! i
  = s !! i ≫= fun q => put_nowait q event_data.
Proof.
  unfold broadcast_sse_event.
  pose proof (enqueue_all_lookup event_data (map_to_list s) i
                (NoDup_fst_map_to_list s)) as H.
  destruct (enqueue_all event_data (map_to_list s)) as [updated dead].
  cbn [fst snd] in H. rewrite H. by rewrite list_to_map_to_list.
Qed.

Lemma put_nowait_unbounded (q : queue) (event_data : string) :
  maxsize q <= 0 ->
  put_nowait q event_data
  = Some {| maxsize := maxsize q; items := items q ++ [event_data] |}.
Proof.
  intros H. unfold put_nowait, full.
  destruct (Z.leb_spec (maxsize q) 0); [done|lia].
Qed.

Lemma broadcast_all_unbounded (events : list string) (s : clients)
    (i : positive) (q : queue) :
  s !! i = Some q -> maxsize q <= 0 ->
  broadcast_all events s !! i
  = Some {| maxsize := maxsize q; items := items q ++ events |}.
Proof.
  revert s q. induction events as [|e events IH]; intros s q Hq Hmax.
  - cbn. rewrite app_nil_r, Hq. by destruct q.
  - cbn [broadcast_all fold_left].
    change (fold_left _ events ?s') with (broadcast_all events s').
    rewrite (IH _ {| maxsize := maxsize q; items := items q ++ [e] |}).
    + cbn [maxsize items]. by rewrite <- app_assoc.
    + rewrite broadcast_lookup, Hq. cbn. by apply put_nowait_unbounded.
    + done.
Qed.

Lemma frames_drain (events : list string) (s : clients) (i : positive)
    (m : Z) :
  s !! i = Some {| maxsize := m; items := events |} ->
  frames (length events) i s
  = (DataFrame <$> events, <[i := {| maxsize := m; items := [] |}]> s).
Proof.
  revert s. induction events as [|e events IH]; intros s Hq.
  - cbn. by rewrite insert_id.
  - cbn [length frames]. unfold next_frame. rewrite Hq. cbn [items maxsize].
    rewrite (IH (<[i := {| maxsize := m; items := events |}]> s))
      by apply lookup_insert_eq.
    by rewrite insert_insert_eq.
Qed.

(** X12. An observer of the event stream loses nothing and sees events
    in the order they were broadcast: its queue is unbounded, so however
    many events are broadcast, and whatever happens to the other
    observers, it stays subscribed; read afterwards, its stream yields
    one data frame per event, in broadcast order, and only then the
    keepalive. *)
Theorem stream_delivers_in_order (events : list string) (s : clients)
    (i : positive) :
  broadcast_all events (subscribe i s) !! i
  = Some {| maxsize := 0; items := events |}
  /\ (frames (length events + 1) i (broadcast_all events (subscribe i s))).1
     = (DataFrame <$> events) ++ [Keepalive]
  /\ (frames (length events + 1) i (broadcast_all events (subscribe i s))).2 !! i
     = Some {| maxsize := 0; items := [] |}.
Proof.
  assert (broadcast_all events (subscribe i s) !! i
          = Some {| maxsize := 0; items := events |}) as Hq.
  { rewrite (broadcast_all_unbounded events _ i {| maxsize := 0; items := [] |});
      [done|apply lookup_insert_eq|done]. }
  split; [exact Hq|].
  assert (forall n k (t : clients),
            (frames (n + k) i t).1
            = (frames n i t).1 ++ (frames k i (frames n i t).2).1
            /\ (frames (n + k) i t).2 = (frames k i (frames n i t).2).2)
    as Hsplit.
  { induction n as [|n IH]; intros k t; [done|].
    cbn [Nat.add frames]. destruct (next_frame i t) as [f t'].
    destruct (IH k t') as [IH1 IH2].
    destruct (frames (n + k) i t') as [fs1 t1].
    destruct (frames n i t') as [fs2 t2]. cbn [fst snd] in *.
    by rewrite IH1, IH2. }
  destruct (Hsplit (length events) 1%nat (broadcast_all events (subscribe i s)))
    as [H1 H2].
  rewrite H1, H2, (frames_drain _ _ _ _ Hq). cbn [fst snd frames].
  unfold next_frame. rewrite lookup_insert_eq. cbn [items fst snd].
  split; [done|apply lookup_insert_eq].
Qed.

End stream_facts.

(** ** Sessions as a whole *)

Section session_facts.
Import Registry Api.

Lemma register_device_other now a p uid caps h cpu dn pk fp (r : registry)
    (u : string) :
  u <> uid ->
  devices (register_device now a p uid caps h cpu dn pk fp r).2 !! u
  = devices r !! u.
Proof. intros Hne. rewrite register_device_devices. by apply lookup_insert_ne. Qed.

Lemma register_device_paired_store now a p uid caps h cpu dn pk fp
    (r : registry) :
  paired_store (register_device now a p uid caps h cpu dn pk fp r).2
  = paired_store r.
Proof. reflexivity. Qed.

Lemma register_device_is_some now a p uid caps h cpu dn pk fp (r : registry)
    (u : string) :
  is_Some (devices r !! u) ->
  is_Some (devices (register_device now a p uid caps h cpu dn pk fp r).2 !! u).
Proof.
  intros H. rewrite register_device_devices.
  destruct (decide (uid = u)) as [->|Hne];
    [rewrite lookup_insert_eq; by eexists|by rewrite lookup_insert_ne].
Qed.

Lemma session_step_refl (sut_id : string) (st : state) :
  session_step sut_id st st.
Proof.
  repeat split; try done. exists []. by rewrite app_nil_r.
Qed.

Lemma session_step_trans (sut_id : string) (st1 st2 st3 : state) :
  session_step sut_id st1 st2 -> session_step sut_id st2 st3 ->
  session_step sut_id st1 st3.
Proof.
  intros (Ho1 & Hs1 & Hp1 & r1 & Hr1 & Hf1) (Ho2 & Hs2 & Hp2 & r2 & Hr2 & Hf2).
  split; [intros u Hu; by rewrite Ho2, Ho1|].
  split; [intros u Hu; by apply Hs2, Hs1|].
  split; [congruence|].
  exists (r1 ++ r2). split; [by rewrite Hr2, Hr1, app_assoc|].
  by apply Forall_app.
Qed.

Lemma session_step_close (sut_id : string) (st : state) :
  session_step sut_id st (close_session sut_id st).
Proof.
  unfold session_step, close_session, mark_device_offline, with_reg,
    ws_disconnect, with_devices.
  cbn [reg sent devices paired_store].
  split; [intros u Hu; by rewrite lookup_alter_ne|].
  split.
  { intros u [d Hd]. destruct (decide (sut_id = u)) as [->|Hne].
    - rewrite lookup_alter_eq, Hd. by eexists.
    - rewrite lookup_alter_ne by done. by eexists. }
  split; [done|]. exists []. by rewrite app_nil_r.
Qed.

Lemma session_step_send (sut_id : string) (m : out_msg) (st st' : state) :
  session_step sut_id st st' ->
  session_step sut_id st (send_json sut_id m st').
Proof.
  intros (Ho & Hs & Hp & r & Hr & Hf).
  repeat split; try done. exists (r ++ [(sut_id, m)]).
  cbn [send_json sent]. split; [by rewrite Hr, app_assoc|].
  apply Forall_app. split; [done|]. by apply Forall_singleton.
Qed.

Lemma session_step_register now a p uid caps h cpu dn pk fp (st st0 : state) :
  reg st0 = reg st -> sent st0 = sent st ->
  session_step uid st
    (with_reg (register_device now a p uid caps h cpu dn pk fp (reg st0)).2 st0).
Proof.
  intros Hr Hs. rewrite Hr.
  split; [intros u Hu; cbn [with_reg reg]; by apply register_device_other|].
  split; [intros u Hu; cbn [with_reg reg]; by apply register_device_is_some|].
  split; [done|]. exists []. cbn [with_reg sent]. by rewrite app_nil_r.
Qed.

Lemma session_step_open env sut_id first (st : state) :
  session_step sut_id st (open_session env sut_id first st).2.
Proof.
  destruct first as [| |init_data]; cbn [open_session snd].
  - apply session_step_close.
  - apply (session_step_trans _ _ (ws_connect sut_id st));
      [|apply session_step_close].
    repeat split; try done. exists []. cbn [ws_connect sent].
    by rewrite app_nil_r.
  - destruct (register_device _ _ _ _ _ _ _ _ _ _ (reg (ws_connect sut_id st)))
      as [device r] eqn:E.
    destruct (master_key_block env device _) as [[[pk fp] re] fs].
    apply session_step_send.
    pose proof (session_step_register (now env)
                  (default "unknown" (p_ip init_data))
                  (default 8080 (p_port init_data)) sut_id
                  (default [] (p_capabilities init_data))
                  (default "" (p_hostname init_data))
                  (p_cpu_model init_data) (p_display_name init_data)
                  (p_ssh_public_key init_data)
                  (p_ssh_key_fingerprint init_data)
                  st (ws_connect sut_id st) eq_refl eq_refl) as Hstep.
    rewrite E in Hstep. exact Hstep.
Qed.

Lemma session_step_message env sut_id init_data message (st : state) :
  session_step sut_id st (on_message env sut_id init_data message st).
Proof.
  unfold on_message.
  destruct (message !! "type") as [[| | |msg_type| |]|];
    try apply session_step_refl.
  destruct (String.eqb msg_type "heartbeat").
  { destruct (register_device _ _ _ _ _ _ _ _ _ _ (reg st)) as [dev r] eqn:E.
    apply session_step_send.
    pose proof (session_step_register (now env)
                  (default "unknown" (p_ip init_data))
                  (default 8080 (p_port init_data)) sut_id
                  (default [] (p_capabilities init_data))
                  (default "" (p_hostname init_data))
                  None None None None st st eq_refl eq_refl) as Hstep.
    rewrite E in Hstep. exact Hstep. }
  destruct (String.eqb msg_type "status_update"); [apply session_step_refl|].
  destruct (String.eqb msg_type "master_key_installed");
    [|apply session_step_refl].
  destruct (truthy _).
  - apply session_step_send.
    unfold session_step, with_reg, update_master_key_status, with_devices.
    cbn [reg devices sent paired_store].
    split; [intros u Hu; by rewrite lookup_alter_ne|].
    split.
    { intros u [d Hd].
      destruct (decide (sut_id = u)) as [->|Hne].
      - rewrite lookup_alter_eq, Hd. by eexists.
      - rewrite lookup_alter_ne by done. by eexists. }
    split; [done|]. exists []. by rewrite app_nil_r.
  - apply session_step_send, session_step_refl.
Qed.

Lemma session_step_messages sut_id init_data
    (messages : list (environment * gmap string json)) (st : state) :
  session_step sut_id st
    (fold_left (fun s m => on_message m.1 sut_id init_data m.2 s) messages st).
Proof.
  revert st. induction messages as [|m messages IH]; intros st;
    [apply session_step_refl|].
  cbn [fold_left].
  eapply session_step_trans; [apply session_step_message|apply IH].
Qed.

(** Every session ends in the [finally] clause, run on a state that the
    steps of the session have led to. *)
Lemma endpoint_shape env sut_id first
    (messages : list (environment * gmap string json)) (st : state) :
  exists mid,
    session_step sut_id st mid
    /\ websocket_sut_endpoint env sut_id first messages st
       = close_session sut_id mid
    /\ (forall init_data, first = RecvObject init_data ->
        is_Some (devices (reg mid) !! sut_id)).
Proof.
  destruct first as [| |init_data].
  - exists st. split; [apply session_step_refl|]. by split.
  - exists (ws_connect sut_id st). split; [|by split].
    repeat split; try done. exists []. cbn [ws_connect sent].
    by rewrite app_nil_r.
  - unfold websocket_sut_endpoint.
    pose proof (session_step_open env sut_id (RecvObject init_data) st) as Hopen.
    destruct (open_session_object env sut_id init_data st)
      as (d & m & sr & pk & fp & Halive & Hd & _).
    destruct (open_session env sut_id (RecvObject init_data) st)
      as [alive st1]. cbn [fst snd] in *. subst alive.
    pose proof (session_step_messages sut_id init_data messages st1) as Hloop.
    eexists. split; [exact (session_step_trans _ _ _ _ Hopen Hloop)|].
    split; [done|]. intros _ _.
    destruct Hloop as (_ & Hkeep & _). apply Hkeep. by eexists.
Qed.

(** X13. However a session goes (no payload, a payload that is no
    object, or a registration followed by any messages), when the
    endpoint returns the device has no live session left and its record,
    if it has one, is offline; and after a registration it does have
    one. *)
Theorem session_ends_offline env sut_id first
    (messages : list (environment * gmap string json)) (st : state) :
  (sut_id ∉ connections (websocket_sut_endpoint env sut_id first messages st))
  /\ (forall d,
        devices (reg (websocket_sut_endpoint env sut_id first messages st))
          !! sut_id = Some d ->
        is_online d = false)
  /\ (forall init_data, first = RecvObject init_data ->
      is_Some (devices
                 (reg (websocket_sut_endpoint env sut_id first messages st))
                 !! sut_id)).
Proof.
  destruct (endpoint_shape env sut_id first messages st)
    as (mid & _ & -> & Hreg).
  unfold close_session, mark_device_offline, with_reg, ws_disconnect,
    with_devices.
  cbn [reg devices connections].
  split; [rewrite elem_of_difference, elem_of_singleton; tauto|]. split.
  - intros d. rewrite lookup_alter_eq.
    destruct (devices (reg mid) !! sut_id) as [d0|]; [|done].
    by intros [= <-].
  - intros init_data Hfirst. rewrite lookup_alter_eq.
    destruct (Hreg init_data Hfirst) as [d0 ->]. by eexists.
Qed.

(** X14. A session keeps to its own device: whatever it receives, the
    records of all other identities are afterwards exactly what they
    were, no record has disappeared, the durable paired set is
    untouched, and everything it has sent went to its own device. *)
Theorem session_keeps_to_its_device env sut_id first
    (messages : list (environment * gmap string json)) (st : state) :
  (forall u, u <> sut_id ->
     devices (reg (websocket_sut_endpoint env sut_id first messages st)) !! u
     = devices (reg st) !! u)
  /\ (forall u, is_Some (devices (reg st) !! u) ->
      is_Some (devices
                 (reg (websocket_sut_endpoint env sut_id first messages st))
                 !! u))
  /\ paired_store (reg (websocket_sut_endpoint env sut_id first messages st))
     = paired_store (reg st)
  /\ exists replies,
       sent (websocket_sut_endpoint env sut_id first messages st)
       = sent st ++ replies
       /\ Forall (fun m => m.1 = sut_id) replies.
Proof.
  destruct (endpoint_shape env sut_id first messages st)
    as (mid & Hmid & -> & _).
  exact (session_step_trans _ _ _ _ Hmid (session_step_close sut_id mid)).
Qed.

End session_facts.

(** ** Status and diagnosis endpoints *)

Section status_facts.
Import Registry Api.

Lemma get_fingerprint_files (env : MasterKey.environment)
    (fs : MasterKey.key_files) :
  (MasterKey.get_fingerprint env fs).2
  = (MasterKey.ensure_key_exists env fs).2.
Proof.
  unfold MasterKey.get_fingerprint.
  destruct (MasterKey.ensure_key_exists env fs) as [[success msg] fs'].
  destruct success; cbn [negb snd]; [|done].
  destruct (MasterKey.private_key fs'); [|done].
  destruct (MasterKey.listing env) as [rc out|e]; [|done].
  destruct (rc =? 0); [|done].
  by destruct (PyStr.split (PyStr.strip out)) as [|a [|b l]].
Qed.

Lemma get_public_key_files (env : MasterKey.environment)
    (fs : MasterKey.key_files) :
  (MasterKey.get_public_key env fs).2
  = (MasterKey.ensure_key_exists env fs).2.
Proof.
  unfold MasterKey.get_public_key.
  destruct (MasterKey.ensure_key_exists env fs) as [[success msg] fs'].
  destruct success; cbn [negb snd]; [|done].
  by destruct (MasterKey.public_key fs').
Qed.

Lemma test_connection_files (env : MasterKey.environment)
    (sh : MasterKey.shell) (sut_ip : string) (user : option string)
    (timeout : Z) (fs : MasterKey.key_files) :
  (MasterKey.test_connection env sh sut_ip user timeout fs).2
  = (MasterKey.ensure_key_exists env fs).2.
Proof.
  unfold MasterKey.test_connection.
  destruct (MasterKey.ensure_key_exists env fs) as [[success msg] fs'].
  destruct success; cbn [negb snd]; [|done].
  destruct (MasterKey.run_ssh sh _ _ _) as [rc out err| |e]; try done.
  by destruct ((rc =? 0) && PyStr.contains "SSH_OK" out).
Qed.

Lemma ensure_twice (env : MasterKey.environment) (fs : MasterKey.key_files) :
  (MasterKey.ensure_key_exists env (MasterKey.ensure_key_exists env fs).2).2
  = (MasterKey.ensure_key_exists env fs).2.
Proof.
  destruct ((MasterKey.ensure_key_exists env fs).1.1) eqn:Hok.
  - exact (ensure_keeps_present env _ (ensure_success_both_exist env fs Hok)).
  - by rewrite !(ensure_failure_keeps_files _ _ Hok).
Qed.

Lemma get_fingerprint_success (env : MasterKey.environment)
    (fs : MasterKey.key_files) (fp : string) :
  (MasterKey.get_fingerprint env fs).1 = Some fp ->
  (MasterKey.ensure_key_exists env fs).1.1 = true.
Proof.
  unfold MasterKey.get_fingerprint.
  destruct (MasterKey.ensure_key_exists env fs) as [[success msg] fs'].
  by destruct success.
Qed.

Lemma get_fingerprint_ensured (env : MasterKey.environment)
    (fs : MasterKey.key_files) :
  (MasterKey.ensure_key_exists env fs).1.1 = true ->
  MasterKey.get_fingerprint env (MasterKey.ensure_key_exists env fs).2
  = MasterKey.get_fingerprint env fs.
Proof.
  intros Hok. pose proof (ensure_success_both_exist _ _ Hok) as Hboth.
  unfold MasterKey.get_fingerprint at 1. rewrite (ensure_present _ _ Hboth).
  unfold MasterKey.get_fingerprint.
  destruct (MasterKey.ensure_key_exists env fs) as [[success msg] fs'].
  cbn [fst snd] in *. by subst success.
Qed.

Lemma test_connection_verdict (env : MasterKey.environment)
    (sh : MasterKey.shell) (sut_ip : string) (user : option string)
    (timeout : Z) (fs : MasterKey.key_files) :
  MasterKey.both_exist fs = true ->
  (MasterKey.test_connection env sh sut_ip user timeout fs).1.1 = true
  <-> exists out err,
        MasterKey.run_ssh sh (MasterKey.target sh sut_ip user) timeout
          "echo SSH_OK" = MasterKey.SshExit 0 out err
        /\ PyStr.contains "SSH_OK" out = true.
Proof.
  intros Hboth. unfold MasterKey.test_connection.
  rewrite (ensure_present _ _ Hboth). cbn [negb].
  destruct (MasterKey.run_ssh sh _ _ _) as [rc out err| |e]; cbn [fst snd].
  - destruct (Z.eqb_spec rc 0) as [->|Hrc]; cbn [andb].
    + destruct (PyStr.contains "SSH_OK" out) eqn:Hout; cbn [fst].
      * split; [|done]. intros _. by exists out, err.
      * split; [done|]. intros (out' & err' & [= <- <-] & Hc). congruence.
    + split; [done|]. intros (out' & err' & [= -> _ _] & _). done.
  - split; [done|]. by intros (out' & err' & H & _).
  - split; [done|]. by intros (out' & err' & H & _).
Qed.

(** X15. [get_master_key_info] reads [exists] before it asks for the
    fingerprint, and asking for the fingerprint generates a missing key:
    [exists] tells whether the private key was there when the request
    came in, so a first request can answer that the key does not exist
    and give its fingerprint all the same.  Once a fingerprint has been
    given, the same request again answers [exists] with that
    fingerprint and changes nothing. *)
Theorem master_key_info_exists_lags (env : environment) (st st' : state)
    (reply : master_key_reply) :
  get_master_key_info env st = (Response reply, st') ->
  (mk_exists reply = true
   <-> is_Some (MasterKey.private_key (key_files st)))
  /\ (forall fp,
        mk_fingerprint reply = Some fp ->
        get_master_key_info env st'
        = (Response {| mk_exists := true; mk_fingerprint := Some fp |}, st')).
Proof.
  unfold get_master_key_info.
  destruct (key_manager_error env) as [e|]; [done|].
  pose proof (get_fingerprint_files (key_env env) (key_files st)) as Hfiles.
  pose proof (get_fingerprint_success (key_env env) (key_files st)) as Hok.
  pose proof (get_fingerprint_ensured (key_env env) (key_files st)) as Hagain.
  pose proof (ensure_success_both_exist (key_env env) (key_files st)) as Hboth.
  destruct (MasterKey.get_fingerprint (key_env env) (key_files st))
    as [fingerprint fs] eqn:Hfp.
  cbn [fst snd] in *. intros [= <- <-]. cbn [mk_exists mk_fingerprint key_files].
  split.
  - destruct (MasterKey.private_key (key_files st)) as [k|].
    + split; [by eexists|done].
    + split; [done|]. by intros [? ?].
  - intros fp ->. specialize (Hok fp eq_refl).
    specialize (Hagain Hok). specialize (Hboth Hok).
    rewrite <- Hfiles in Hagain, Hboth. rewrite Hagain.
    unfold MasterKey.both_exist in Hboth.
    by destruct (MasterKey.private_key fs).
Qed.

Lemma master_key_info_exists_lags_witness :
  (get_master_key_info Scenario.env_ok (initial 10)).1
  = Response {| mk_exists := false; mk_fingerprint := Some "SHA256:abc" |}
  /\ (get_master_key_info Scenario.env_ok
        (get_master_key_info Scenario.env_ok (initial 10)).2).1
     = Response {| mk_exists := true; mk_fingerprint := Some "SHA256:abc" |}.
Proof.
  destruct (master_key_info_exists_lags Scenario.env_ok (initial 10)
              (get_master_key_info Scenario.env_ok (initial 10)).2
              {| mk_exists := false; mk_fingerprint := Some "SHA256:abc" |}
              eq_refl) as [_ Hagain].
  split; [reflexivity|]. by rewrite (Hagain "SHA256:abc" eq_refl).
Defined.

(** X16. The three status requests ([get_ssh_status],
    [get_master_key_info], [diagnose_ssh_connectivity]) never touch the
    registry, the live sessions or what was sent to the devices.  They
    are not free of effects, though: the only thing they may change is
    the Master's key files, and then exactly as one [ensure_key_exists]
    does, however many times the key manager is asked. *)
Theorem status_queries_read_only (env : environment)
    (key_store : option (string -> bool)) (sh : MasterKey.shell)
    (unique_id address : string) (st : state) :
  Forall
    (fun st' =>
       reg st' = reg st /\ connections st' = connections st
       /\ sent st' = sent st
       /\ (key_files st' = key_files st
           \/ key_files st'
              = (MasterKey.ensure_key_exists (key_env env) (key_files st)).2))
    [ (get_ssh_status env key_store unique_id st).2;
      (get_master_key_info env st).2;
      (diagnose_ssh_connectivity env sh address st).2 ].
Proof.
  pose proof (get_fingerprint_files (key_env env)) as Hfp.
  pose proof (get_public_key_files (key_env env)) as Hpk.
  pose proof (test_connection_files (key_env env) sh) as Htest.
  pose proof (ensure_twice (key_env env) (key_files st)) as Htwice.
  repeat apply Forall_cons_2; [..|apply Forall_nil_2].
  - unfold get_ssh_status.
    destruct (get_device_by_id unique_id (reg st)); [|by auto].
    destruct (key_manager_error env) as [e|]; [by auto|].
    specialize (Hfp (key_files st)).
    destruct (MasterKey.get_fingerprint (key_env env) (key_files st))
      as [fingerprint fs1].
    specialize (Hpk fs1).
    destruct (MasterKey.get_public_key (key_env env) fs1) as [pk fs2].
    cbn [fst snd reg connections sent key_files] in *.
    repeat split; try done. right. subst fs2 fs1. exact Htwice.
  - unfold get_master_key_info.
    destruct (key_manager_error env) as [e|]; [by auto|].
    specialize (Hfp (key_files st)).
    destruct (MasterKey.get_fingerprint (key_env env) (key_files st))
      as [fingerprint fs1].
    cbn [fst snd reg connections sent key_files] in *.
    repeat split; try done. by right.
  - unfold diagnose_ssh_connectivity.
    destruct (key_manager_error env) as [e|]; [by auto|].
    destruct (MasterKey.ensure_key_exists (key_env env) (key_files st))
      as [[key_exists key_msg] fs1].
    destruct key_exists; cbn [negb]; [|by auto].
    specialize (Htest address None 10 fs1).
    destruct (MasterKey.test_connection (key_env env) sh address None 10 fs1)
      as [[success msg] fs2].
    specialize (Hfp fs2).
    destruct (MasterKey.get_fingerprint (key_env env) fs2)
      as [fingerprint fs3].
    cbn [fst snd reg connections sent key_files] in *.
    repeat split; try done. right. subst fs3 fs2.
    by rewrite !Htwice.
Qed.

(** X17. [diagnose_ssh_connectivity] tests the address it is given,
    whether or not a device is registered there.  With no key manager
    it reports the error and tests nothing; likewise when the key pair
    cannot be ensured.  Otherwise it reports a test, as connected
    exactly when [ssh] to the current user at that address, with a
    connect timeout of 10, exits with 0 and prints [SSH_OK], together
    with the fingerprint of the ensured key. *)
Theorem diagnose_tests_connection (env : environment) (sh : MasterKey.shell)
    (address : string) (st : state) :
  (forall e, key_manager_error env = Some e ->
     diag_ssh (diagnose_ssh_connectivity env sh address st).1 = NotTested e)
  /\ (key_manager_error env = None ->
      (MasterKey.ensure_key_exists (key_env env) (key_files st)).1.1 = false ->
      diag_ssh (diagnose_ssh_connectivity env sh address st).1
      = NotTested
          ("Master key not available: "
           +:+ (MasterKey.ensure_key_exists (key_env env) (key_files st)).1.2))
  /\ (key_manager_error env = None ->
      (MasterKey.ensure_key_exists (key_env env) (key_files st)).1.1 = true ->
      exists connected msg,
        diag_ssh (diagnose_ssh_connectivity env sh address st).1
        = Tested connected msg
            (MasterKey.get_fingerprint (key_env env) (key_files st)).1
        /\ (connected = true
            <-> exists out err,
                  MasterKey.run_ssh sh
                    (MasterKey.current_user sh +:+ "@" +:+ address) 10
                    "echo SSH_OK" = MasterKey.SshExit 0 out err
                  /\ PyStr.contains "SSH_OK" out = true)).
Proof.
  unfold diagnose_ssh_connectivity. split; [by intros e ->|].
  split.
  - intros -> Hfail.
    destruct (MasterKey.ensure_key_exists (key_env env) (key_files st))
      as [[key_exists key_msg] fs1].
    cbn [fst snd] in *. by subst key_exists.
  - intros -> Hok.
    pose proof (ensure_success_both_exist _ _ Hok) as Hboth.
    pose proof (get_fingerprint_ensured _ _ Hok) as Hfp.
    destruct (MasterKey.ensure_key_exists (key_env env) (key_files st))
      as [[key_exists key_msg] fs1].
    cbn [fst snd] in *. subst key_exists. cbn [negb].
    pose proof (test_connection_verdict (key_env env) sh address None 10
                  fs1 Hboth) as Hverdict.
    pose proof (test_connection_files (key_env env) sh address None 10 fs1)
      as Hfiles.
    rewrite (ensure_keeps_present _ _ Hboth) in Hfiles.
    destruct (MasterKey.test_connection (key_env env) sh address None 10 fs1)
      as [[success msg] fs2].
    cbn [fst snd] in *. subst fs2. rewrite Hfp.
    destruct (MasterKey.get_fingerprint (key_env env) (key_files st))
      as [fingerprint fs3].
    cbn [fst snd diag_ssh]. by exists success, msg.
Qed.

(** X18. In every state the service can reach from its start, the
    device that [diagnose_ssh_connectivity] reports for an address is a
    registered one whose record carries that very address: the index by
    address never hands out a record of another address. *)
Theorem diagnose_reports_device_at_address (ops : list op) (cap : nat)
    (env : environment) (sh : MasterKey.shell) (address : string)
    (info : string * string * bool * bool) :
  diag_device_info
    (diagnose_ssh_connectivity env sh address (run ops (initial cap))).1
  = Some info ->
  exists uid d,
    devices (reg (run ops (initial cap))) !! uid = Some d
    /\ ip d = address /\ info = device_info d.
Proof.
  assert (index_sound (reg (run ops (initial cap)))) as Hsound.
  { apply run_sound. intros a uid H.
    cbn [initial reg ip_to_id_mapping] in H. by rewrite lookup_empty in H. }
  unfold diagnose_ssh_connectivity.
  destruct (match key_manager_error env with
            | Some e => _ | None => _ end) as [result fs].
  cbn [fst diag_device_info]. unfold get_device_by_ip.
  destruct (ip_to_id_mapping (reg (run ops (initial cap))) !! address)
    as [uid|] eqn:Hidx; [|done].
  destruct (Hsound _ _ Hidx) as (d & Hd & Hip).
  rewrite Hd. cbn [fmap option_fmap option_map]. intros [= <-].
  by exists uid, d.
Qed.

Lemma diagnose_reports_device_at_address_witness :
  exists uid d,
    devices (reg (run [OpOpen Scenario.env_ok "dev-A"
                         (RecvObject (Scenario.payload_at "10.0.0.5" "sut-a"))]
                    (initial 10))) !! uid = Some d
    /\ ip d = "10.0.0.5"
    /\ ("dev-A", "sut-a", true, false) = device_info d.
Proof.
  apply (diagnose_reports_device_at_address _ 10 Scenario.env_ok
           {| MasterKey.current_user := "lab";
              MasterKey.run_ssh := fun _ _ _ => MasterKey.SshTimeout |}).
  by vm_compute.
Defined.

End status_facts.

(** ** Requests of the operator and messages of the device *)

Section endpoint_facts.
Import Registry Api.

(** X19. [trigger_ssh_exchange] sends at most one message, and only
    when it answers that the request was sent: then the device has a
    live session and the one message added is [install_master_key] to
    that device, with the Master's public key and the [force] asked for
    (absent means no).  Every other answer, errors and the answer that
    the key is already installed alike, sends nothing; and for an online
    device that has the key, a request without [force] changes nothing
    at all, not even the Master's key files. *)
Theorem exchange_sends_only_on_success (env : environment)
    (unique_id : string) (request : option bool) (st : state) :
  (forall fp force,
     (trigger_ssh_exchange env unique_id request st).1
     = Response (RequestSent fp force) ->
     force = default false request
     /\ unique_id ∈ connections st
     /\ exists pk,
          (MasterKey.get_public_key (key_env env) (key_files st)).1 = Some pk
          /\ PyStr.nonempty pk = true
          /\ sent (trigger_ssh_exchange env unique_id request st).2
             = sent st ++ [(unique_id, InstallMasterKey pk fp force)])
  /\ ((forall fp force,
         (trigger_ssh_exchange env unique_id request st).1
         <> Response (RequestSent fp force)) ->
      sent (trigger_ssh_exchange env unique_id request st).2 = sent st)
  /\ (forall d,
        devices (reg st) !! unique_id = Some d ->
        is_online d = true -> master_key_installed d = true ->
        default false request = false ->
        trigger_ssh_exchange env unique_id request st
        = (Response (AlreadyInstalled (master_key_installed_at d)), st)).
Proof.
  unfold trigger_ssh_exchange, get_device_by_id.
  destruct (devices (reg st) !! unique_id) as [device|]; [|by repeat split].
  destruct (is_online device) eqn:Hon; cbn [negb].
  2:{ split; [done|]. split; [done|]. intros d [= <-]. congruence. }
  destruct (master_key_installed device && negb (default false request))
    eqn:Hskip.
  { split; [done|]. split; [done|]. by intros d [= <-]. }
  assert (forall d, Some device = Some d -> master_key_installed d = true ->
                    default false request = false -> False) as Hno.
  { intros d [= <-] Hi Hf. by rewrite Hi, Hf in Hskip. }
  destruct (key_manager_error env) as [e|].
  { split; [done|]. split; [done|]. intros d Hd _ Hi Hf.
    by destruct (Hno d Hd Hi Hf). }
  destruct (MasterKey.get_public_key (key_env env) (key_files st))
    as [master_public_key fs1].
  destruct (MasterKey.get_fingerprint (key_env env) fs1)
    as [master_fingerprint fs2].
  cbn [fst].
  destruct master_public_key as [pk|].
  2:{ split; [done|]. split; [done|]. intros d Hd _ Hi Hf.
      by destruct (Hno d Hd Hi Hf). }
  destruct (PyStr.nonempty pk) eqn:Hpk.
  2:{ split; [done|]. split; [done|]. intros d Hd _ Hi Hf.
      by destruct (Hno d Hd Hi Hf). }
  unfold send_to_device. cbn [connections].
  destruct (decide (unique_id ∈ connections st)) as [Hlive|Hdead];
    cbn [negb fst snd send_json sent].
  - split.
    + intros fp force [= <- <-]. split; [done|]. split; [done|].
      by exists pk.
    + split.
      * intros Hnot. by destruct (Hnot master_fingerprint
                                    (default false request)).
      * intros d Hd _ Hi Hf. by destruct (Hno d Hd Hi Hf).
  - split; [done|]. split; [done|]. intros d Hd _ Hi Hf.
    by destruct (Hno d Hd Hi Hf).
Qed.

(** X20. A message of the loop is answered at most once, and only to
    its sender: a [heartbeat] gets [heartbeat_ack], a
    [master_key_installed] gets its acknowledgement carrying the
    truthiness of [success], and a message of any other type, or with
    a type that is no string or missing, is dropped without an answer
    and without any change of state.  No message touches the live
    sessions or the Master's key files. *)
Theorem on_message_replies (env : environment) (sut_id : string)
    (init_data : init_payload) (message : gmap string json) (st : state) :
  connections (on_message env sut_id init_data message st) = connections st
  /\ key_files (on_message env sut_id init_data message st) = key_files st
  /\ ((message !! "type" = Some (JStr "heartbeat")
       /\ sent (on_message env sut_id init_data message st)
          = sent st ++ [(sut_id, HeartbeatAck)])
      \/ (message !! "type" = Some (JStr "master_key_installed")
          /\ exists error,
               sent (on_message env sut_id init_data message st)
               = sent st
                 ++ [(sut_id,
                      MasterKeyInstalledAck
                        (truthy (default (JBool false) (message !! "success")))
                        error)])
      \/ (message !! "type" <> Some (JStr "heartbeat")
          /\ message !! "type" <> Some (JStr "master_key_installed")
          /\ on_message env sut_id init_data message st = st)).
Proof.
  unfold on_message.
  destruct (message !! "type") as [[| | |msg_type| |]|];
    try (split; [done|]; split; [done|]; right; right; by repeat split).
  destruct (String.eqb_spec msg_type "heartbeat") as [->|Hhb].
  { destruct (register_device _ _ _ _ _ _ _ _ _ _ _) as [device r].
    cbn [send_json with_reg connections key_files sent].
    split; [done|]. split; [done|]. by left. }
  destruct (String.eqb_spec msg_type "status_update") as [->|Hsu].
  { split; [done|]. split; [done|]. right; right. by repeat split. }
  destruct (String.eqb_spec msg_type "master_key_installed") as [->|Hmk].
  2:{ split; [done|]. split; [done|]. right; right.
      repeat split; try done; by intros [= ->]. }
  destruct (truthy (default (JBool false) (message !! "success")));
    cbn [send_json with_reg connections key_files sent];
    (split; [done|]; split; [done|]; right; left; split; [done|]);
    by eexists.
Qed.

(** X21. Pairing is what guards a device against deletion, and
    unpairing lifts the guard.  After [pair_sut] on a known device the
    identity is in the durable paired set and [delete_sut] without
    [force] is refused with 400, changing nothing; after [unpair_sut]
    the identity has left the paired set and the same delete goes
    through, reporting that the device was not paired. *)
Theorem pairing_guards_delete (now : Z) (paired_by unique_id : string)
    (st : state) (d : SUTDevice) :
  devices (reg st) !! unique_id = Some d ->
  (unique_id ∈ paired_store (reg (pair_sut now unique_id paired_by st).2))
  /\ delete_sut unique_id false (pair_sut now unique_id paired_by st).2
     = (HTTPException 400
          ("SUT " +:+ unique_id
           +:+ " is paired. Use force=true to delete paired devices."),
        (pair_sut now unique_id paired_by st).2)
  /\ (unique_id
       ∉ paired_store
           (reg (unpair_sut unique_id
                   (pair_sut now unique_id paired_by st).2).2))
  /\ (delete_sut unique_id false
        (unpair_sut unique_id (pair_sut now unique_id paired_by st).2).2).1
     = Response {| del_success := true;
                   del_message :=
                     "SUT " +:+ unique_id +:+ " deleted successfully";
                   was_paired := false |}
  /\ devices
       (reg (delete_sut unique_id false
               (unpair_sut unique_id
                  (pair_sut now unique_id paired_by st).2).2).2)
       !! unique_id = None.
Proof.
  intros Hd.
  assert (exists p,
            (pair_sut now unique_id paired_by st).2 = p
            /\ devices (reg p) !! unique_id
               = Some (set_pairing true (Some paired_by) (Some now) d)
            /\ unique_id ∈ paired_store (reg p)) as (p & -> & Hp & Hin).
  { eexists. split; [done|]. unfold pair_sut, pair_device. rewrite Hd.
    cbn [negb snd with_reg reg].
    split.
    - cbn [save_paired_devices with_devices devices].
      by rewrite lookup_alter_eq, Hd.
    - apply elem_of_saved_paired. eexists. split.
      + cbn [with_devices devices]. by rewrite lookup_alter_eq, Hd.
      + done. }
  split; [done|]. split.
  { unfold delete_sut, get_device_by_id. by rewrite Hp. }
  assert (exists u,
            (unpair_sut unique_id p).2 = u
            /\ devices (reg u) !! unique_id
               = Some (set_pairing false None None
                         (set_pairing true (Some paired_by) (Some now) d))
            /\ unique_id ∉ paired_store (reg u)) as (u & -> & Hu & Hout).
  { eexists. split; [done|]. unfold unpair_sut, unpair_device. rewrite Hp.
    cbn [negb snd with_reg reg].
    split.
    - cbn [save_paired_devices with_devices devices].
      by rewrite lookup_alter_eq, Hp.
    - rewrite elem_of_saved_paired. intros (d' & Hd' & Hpaired).
      cbn [with_devices devices] in Hd'.
      rewrite lookup_alter_eq, Hp in Hd'. cbn in Hd'.
      injection Hd' as <-. done. }
  split; [done|].
  unfold delete_sut, get_device_by_id. rewrite Hu.
  cbn [set_pairing is_paired andb negb fst snd with_reg reg devices].
  split; [done|]. apply lookup_delete_eq.
Qed.

Lemma pairing_guards_delete_witness :
  delete_sut "dev-A" false
    (pair_sut 120 "dev-A" "operator" Scenario.one_device).2
  = (HTTPException 400
       ("SUT " +:+ "dev-A"
        +:+ " is paired. Use force=true to delete paired devices."),
     (pair_sut 120 "dev-A" "operator" Scenario.one_device).2)
  /\ devices
       (reg (delete_sut "dev-A" false
               (unpair_sut "dev-A"
                  (pair_sut 120 "dev-A" "operator"
                     Scenario.one_device).2).2).2)
       !! "dev-A" = None.
Proof.
  assert (devices (reg Scenario.one_device) !! "dev-A"
          = Some Scenario.device_a) as Hd by (by vm_compute).
  destruct (pairing_guards_delete 120 "operator" "dev-A" Scenario.one_device
              Scenario.device_a Hd) as (_ & Hrefused & _ & _ & Hgone).
  by split.
Defined.



End endpoint_facts.

(** ** The firewall rule, the network profile and the status *)

Section firewall_facts.
Import PyStr SshSetup.

Lemma run_powershell_check (w : machine) (command : string) (timeout : Z)
    (log : list (string * Z)) (word : string) :
  (_run_powershell w command timeout log).1.1.1
  && contains word (_run_powershell w command timeout log).1.1.2 = true
  <-> exists out err,
        powershell w log command timeout = PsExit 0 out err
        /\ contains word (strip out) = true.
Proof.
  unfold _run_powershell. cbn [fst snd].
  destruct (powershell w log command timeout) as [rc out err| | |e];
    cbn [fst snd andb]; try (split; [done|]; by intros (? & ? & ? & ?)).
  destruct (Z.eqb_spec rc 0) as [->|Hrc]; cbn [andb].
  - split; [intros H; by exists out, err|].
    by intros (out' & err' & [= <- <-] & H).
  - split; [done|]. by intros (out' & err' & [= -> _ _] & _).
Qed.

Lemma run_powershell_log (w : machine) (command : string) (timeout : Z)
    (log : list (string * Z)) :
  (_run_powershell w command timeout log).2 = log ++ [(command, timeout)].
Proof. done. Qed.

Lemma run_powershell_success (w : machine) (command : string) (timeout : Z)
    (log : list (string * Z)) :
  (_run_powershell w command timeout log).1.1.1 = true
  <-> exists out err, powershell w log command timeout = PsExit 0 out err.
Proof.
  unfold _run_powershell. cbn [fst snd].
  destruct (powershell w log command timeout) as [rc out err| | |e];
    cbn [fst snd]; try (split; [done|]; by intros (? & ? & ?)).
  destruct (Z.eqb_spec rc 0) as [->|Hrc].
  - split; [intros _; by exists out, err|done].
  - split; [done|]. by intros (out' & err' & [= -> _ _]).
Qed.

(** X23. [configure_firewall_rule] always writes: after its one query
    it runs exactly one changing command, the update of the rule when
    the query succeeded and printed [True], the creation of the rule in
    every other case (a query that failed included), and it succeeds
    exactly when that command exits with 0.
    [set_network_profile_private] looks first: it runs its changing
    command only when the query did not show [Private], and succeeds
    when the profile was private already or that command exits with
    0. *)
Theorem firewall_rule_always_written (w : machine) (log : list (string * Z)) :
  (exists command,
     (configure_firewall_rule w log).2
     = log ++ [(FIREWALL_RULE_ENABLED, 120); (command, 120)]
     /\ ((exists out err,
            powershell w log FIREWALL_RULE_ENABLED 120 = PsExit 0 out err
            /\ contains "True" (strip out) = true) ->
         command = UPDATE_FIREWALL_RULE)
     /\ (~ (exists out err,
              powershell w log FIREWALL_RULE_ENABLED 120 = PsExit 0 out err
              /\ contains "True" (strip out) = true) ->
         command = NEW_FIREWALL_RULE)
     /\ ((configure_firewall_rule w log).1.1 = true
         <-> exists out err,
               powershell w (log ++ [(FIREWALL_RULE_ENABLED, 120)])
                 command 120 = PsExit 0 out err))
  /\ (exists private : bool,
        (private = true
         <-> exists out err,
               powershell w log NETWORK_CATEGORY 120 = PsExit 0 out err
               /\ contains "Private" (strip out) = true)
        /\ (set_network_profile_private w log).2
           = log ++ [(NETWORK_CATEGORY, 120)]
             ++ (if private then [] else [(SET_NETWORK_PRIVATE, 120)])
        /\ ((set_network_profile_private w log).1 = true
            <-> private = true
                \/ exists out err,
                     powershell w (log ++ [(NETWORK_CATEGORY, 120)])
                       SET_NETWORK_PRIVATE 120 = PsExit 0 out err)).
Proof.
  split.
  - pose proof (run_powershell_check w FIREWALL_RULE_ENABLED 120 log "True")
      as Hquery.
    unfold configure_firewall_rule, bind.
    destruct (_run_powershell w FIREWALL_RULE_ENABLED 120 log)
      as [[[ok out] err] log1] eqn:Hrun.
    pose proof (run_powershell_log w FIREWALL_RULE_ENABLED 120 log) as Hlog.
    rewrite Hrun in Hlog. cbn [snd] in Hlog. subst log1.
    cbn [fst snd] in *.
    destruct (ok && contains "True" out) eqn:Hq.
    + exists UPDATE_FIREWALL_RULE.
      pose proof (run_powershell_success w UPDATE_FIREWALL_RULE 120
                    (log ++ [(FIREWALL_RULE_ENABLED, 120)])) as Hchange.
      destruct (_run_powershell w UPDATE_FIREWALL_RULE 120 _)
        as [[[ok' out'] err'] log2] eqn:Hrun'.
      pose proof (run_powershell_log w UPDATE_FIREWALL_RULE 120
                    (log ++ [(FIREWALL_RULE_ENABLED, 120)])) as Hlog.
      rewrite Hrun' in Hlog. cbn [snd] in Hlog. subst log2.
      cbn [fst snd] in *. rewrite <- app_assoc.
      split; [by destruct ok'|]. split; [done|].
      split; [intros Hnot; destruct Hnot; by apply Hquery|].
      by destruct ok'.
    + exists NEW_FIREWALL_RULE.
      pose proof (run_powershell_success w NEW_FIREWALL_RULE 120
                    (log ++ [(FIREWALL_RULE_ENABLED, 120)])) as Hchange.
      destruct (_run_powershell w NEW_FIREWALL_RULE 120 _)
        as [[[ok' out'] err'] log2] eqn:Hrun'.
      pose proof (run_powershell_log w NEW_FIREWALL_RULE 120
                    (log ++ [(FIREWALL_RULE_ENABLED, 120)])) as Hlog.
      rewrite Hrun' in Hlog. cbn [snd] in Hlog. subst log2.
      cbn [fst snd] in *. rewrite <- app_assoc.
      split; [by destruct ok'|].
      split; [intros Hyes; apply Hquery in Hyes; congruence|].
      split; [done|]. by destruct ok'.
  - pose proof (run_powershell_check w NETWORK_CATEGORY 120 log "Private")
      as Hquery.
    unfold set_network_profile_private, bind.
    destruct (_run_powershell w NETWORK_CATEGORY 120 log)
      as [[[ok out] err] log1] eqn:Hrun.
    pose proof (run_powershell_log w NETWORK_CATEGORY 120 log) as Hlog.
    rewrite Hrun in Hlog. cbn [snd] in Hlog. subst log1.
    cbn [fst snd] in *.
    exists (ok && contains "Private" out). split; [done|].
    destruct (ok && contains "Private" out) eqn:Hq.
    + unfold ret. cbn [fst snd]. split; [done|]. split; [by left|done].
    + pose proof (run_powershell_success w SET_NETWORK_PRIVATE 120
                    (log ++ [(NETWORK_CATEGORY, 120)])) as Hchange.
      destruct (_run_powershell w SET_NETWORK_PRIVATE 120 _)
        as [[[ok' out'] err'] log2] eqn:Hrun'.
      pose proof (run_powershell_log w SET_NETWORK_PRIVATE 120
                    (log ++ [(NETWORK_CATEGORY, 120)])) as Hlog.
      rewrite Hrun' in Hlog. cbn [snd] in Hlog. subst log2.
      unfold ret. cbn [fst snd] in *. rewrite <- app_assoc.
      split; [done|]. rewrite Hchange. split; [by right|].
      by intros [?|?].
Qed.

(** X24. [get_status] only looks: it runs the three queries (OpenSSH
    installed, sshd running, sshd automatic), in that order and each
    with a timeout of 120, and no other command; the key count it
    reports is that of the store as it is.  On a machine without
    PowerShell it reports all three as false rather than fail. *)
Theorem get_status_only_queries (w : machine) (file : option string)
    (log : list (string * Z)) :
  (get_status w file log).2
  = log ++ [(CHECK_OPENSSH, 120); (SSHD_STATUS, 120); (SSHD_START_TYPE, 120)]
  /\ keys_count (get_status w file log).1 = authorized_keys_count file
  /\ status_username (get_status w file log).1 = username w
  /\ ((forall l command timeout, powershell w l command timeout = PsNotFound) ->
      openssh_installed (get_status w file log).1 = false
      /\ sshd_running (get_status w file log).1 = false
      /\ sshd_enabled (get_status w file log).1 = false).
Proof.
  unfold get_status, check_openssh_installed, is_sshd_running,
    is_sshd_enabled, bind, ret, _run_powershell.
  cbn [fst snd keys_count status_username openssh_installed sshd_running
       sshd_enabled].
  rewrite <- !app_assoc. split; [done|]. split; [done|]. split; [done|].
  intros Hnone. by rewrite !Hnone.
Qed.

End firewall_facts.
